(** * Language teacher agent: the Cerebras adapter and its turn handler

    A shallow embedding of [agent/language_teacher_agent.py]:
    - the prompt builder [build_system_prompt];
    - the completion client [CerebrasLLM.generate];
    - the turn handler [CerebrasHandler] ([__init__] and [chat]);
    - the part of [entrypoint] that reads the credential and seeds the
      conversation log.

    Python values are modelled by the inductive [PyVal]; exceptions by an
    error monad [Exc]; the network, the error log and the call history by an
    explicit [World] that is passed through every effectful function. *)

From Stdlib Require Import String Ascii List ZArith Bool Lia Floats.
Import ListNotations.

Open Scope string_scope.
Open Scope Z_scope.

(* ================================================================== *)
(** * Python values, truthiness and exceptions *)
(* ================================================================== *)

(** The values [json.loads] / [response.json()] can produce.  A decoded
    JSON object is a [dict] with string keys; it is kept as an association
    list and read with [dict_lookup]. *)
#[warnings="-register-all"] Inductive PyVal : Type :=
| PNone
| PBool (b : bool)
| PInt (z : Z)
| PFloat (f : float)
| PStr (s : string)
| PList (l : list PyVal)
| PDict (d : list (string * PyVal)).

(** Exception classes the modelled code can meet.  The classes of
    [requests.exceptions] all derive from [RequestException], an [IOError],
    hence from [Exception]. *)
Inductive RequestsError : Type :=
| ConnectionError
| ConnectTimeout
| ReadTimeout
| TooManyRedirects
| InvalidJSONError
| OtherRequestException.

Inductive PyExc : Type :=
| RequestException (e : RequestsError)
| HTTPError (status : Z)
| JSONDecodeError
| AttributeError
| TypeError
| KeyError
| IndexError
| KeyboardInterrupt
| SystemExit.

(** [isinstance(e, Exception)]: everything but the two classes that derive
    from [BaseException] only. *)
Definition isinstance_Exception (e : PyExc) : bool :=
  match e with
  | KeyboardInterrupt | SystemExit => false
  | _ => true
  end.

(** Result of a computation that may raise. *)
Inductive Exc (A : Type) : Type :=
| Ok (a : A)
| Raise (e : PyExc).

Arguments Ok {A} a.
Arguments Raise {A} e.

Definition bind {A B : Type} (m : Exc A) (k : A -> Exc B) : Exc B :=
  match m with
  | Ok a => k a
  | Raise e => Raise e
  end.

Notation "x <- m ;; k" := (bind m (fun x => k))
  (at level 61, m at next level, right associativity).

(** [bool(v)] *)
Definition truthy (v : PyVal) : bool :=
  match v with
  | PNone => false
  | PBool b => b
  | PInt z => negb (z =? 0)
  | PFloat f => negb (PrimFloat.eqb f 0%float)
  | PStr s => negb (s =? "")%string
  | PList l => match l with [] => false | _ :: _ => true end
  | PDict d => match d with [] => false | _ :: _ => true end
  end.

Fixpoint dict_lookup {V : Type} (k : string) (d : list (string * V)) : option V :=
  match d with
  | [] => None
  | (k', v) :: d' => if (k =? k')%string then Some v else dict_lookup k d'
  end.

(** [v.get(k)]: only a dict has the method. *)
Definition py_get (v : PyVal) (k : string) : Exc PyVal :=
  match v with
  | PDict d => Ok (match dict_lookup k d with Some x => x | None => PNone end)
  | _ => Raise AttributeError
  end.

(** [len(v)] *)
Definition py_len (v : PyVal) : Exc Z :=
  match v with
  | PStr s => Ok (Z.of_nat (String.length s))
  | PList l => Ok (Z.of_nat (List.length l))
  | PDict d => Ok (Z.of_nat (List.length d))
  | _ => Raise TypeError
  end.

Inductive Key : Type :=
| KStr (s : string)
| KInt (i : Z).

(** Position denoted by index [i] in a sequence of length [n] (negative
    indices count from the end). *)
Definition py_index (n i : Z) : option nat :=
  if (0 <=? i) && (i <? n) then Some (Z.to_nat i)
  else if (- n <=? i) && (i <? 0) then Some (Z.to_nat (n + i))
  else None.

(** [v[k]] *)
Definition py_getitem (v : PyVal) (k : Key) : Exc PyVal :=
  match v, k with
  | PDict d, KStr s =>
      match dict_lookup s d with Some x => Ok x | None => Raise KeyError end
  | PDict _, KInt _ => Raise KeyError
  | PList l, KInt i =>
      match py_index (Z.of_nat (List.length l)) i with
      | Some n => match nth_error l n with Some x => Ok x | None => Raise IndexError end
      | None => Raise IndexError
      end
  | PList _, KStr _ => Raise TypeError
  | PStr s, KInt i =>
      match py_index (Z.of_nat (String.length s)) i with
      | Some n =>
          match String.get n s with
          | Some c => Ok (PStr (String c ""))
          | None => Raise IndexError
          end
      | None => Raise IndexError
      end
  | PStr _, KStr _ => Raise TypeError
  | _, _ => Raise TypeError
  end.

(** [needle in hay] on strings. *)
Fixpoint contains (needle hay : string) : bool :=
  String.prefix needle hay
  || match hay with
     | EmptyString => false
     | String _ rest => contains needle rest
     end.

(* ================================================================== *)
(** * Prompt builder *)
(* ================================================================== *)

Definition nl : string := String (ascii_of_nat 10) "".

Definition base_instruction : string :=
"You are a patient and encouraging language teacher. Your role is to:
- Help students practice speaking naturally
- Correct mistakes gently and constructively
- Ask follow-up questions to keep conversation flowing
- Provide clear explanations when needed
- Adjust your language to the student's level

Keep responses conversational, concise, and encouraging.".

Definition beginner_clause : string :=
  nl ++ nl ++ "Use simple vocabulary and short sentences. Speak slowly and clearly.".

Definition intermediate_clause : string :=
  nl ++ nl ++ "Use moderately complex language. Introduce new vocabulary in context.".

Definition advanced_clause : string :=
  nl ++ nl ++ "Use natural, complex language. Discuss nuanced topics.".

Definition topic_prefix : string := nl ++ nl ++ "Current topic: ".

(** [if topic:] for an [Optional[str]]. *)
Definition topic_truthy (topic : option string) : bool :=
  match topic with
  | None => false
  | Some t => negb (t =? "")%string
  end.

(** [f"{topic}"] *)
Definition topic_text (topic : option string) : string :=
  match topic with
  | None => "None"
  | Some t => t
  end.

Definition build_system_prompt (difficulty : string) (topic : option string) : string :=
  let base := base_instruction in
  let base :=
    if (difficulty =? "beginner")%string then base ++ beginner_clause
    else if (difficulty =? "intermediate")%string then base ++ intermediate_clause
    else base ++ advanced_clause in
  let base :=
    if topic_truthy topic then base ++ topic_prefix ++ topic_text topic
    else base in
  base.

(* ================================================================== *)
(** * Completion client *)
(* ================================================================== *)

(** [CerebrasLLM].  [api_key] is whatever [os.getenv] returned, so it can
    be [None]. *)
Record CerebrasLLM : Type := {
  api_key : option string;
  api_url : string;
  model : string
}.

Definition default_api_url : string := "https://api.cerebras.ai/v1".

(** [CerebrasLLM.__init__] *)
Definition CerebrasLLM_init (key : option string) (url : string) : CerebrasLLM :=
  {| api_key := key; api_url := url; model := "llama3.3-70b" |}.

(** The one list object the handler owns: [self.messages].  A coroutine
    created by the handler holds this list by reference, not a copy. *)
Inductive ListRef : Type := SelfMessages.

(** The object an [async def generate] call returns: the arguments, bound,
    with the body not yet run.  [L] is how the message list is held. *)
Record Coroutine (L : Type) : Type := {
  co_self : CerebrasLLM;
  co_messages : L;
  co_temperature : float;
  co_max_tokens : Z
}.

Arguments co_self {L} _.
Arguments co_messages {L} _.
Arguments co_temperature {L} _.
Arguments co_max_tokens {L} _.

(** What the ["content"] entry of a log message can hold. *)
Inductive Content : Type :=
| CVal (v : PyVal)
| CCoroutine (c : Coroutine ListRef).

(** A message dict [{"role": ..., "content": ...}]. *)
Record Message : Type := {
  role : string;
  content : Content
}.

Record Payload : Type := {
  p_model : string;
  p_messages : list Message;
  p_temperature : float;
  p_max_tokens : Z
}.

Record Request : Type := {
  req_url : string;
  req_json : Payload;
  req_headers : list (string * string);
  req_timeout : Z
}.

(** A [requests.Response]: its status code and what [response.json()]
    gives, [None] when the body is not valid JSON. *)
Record Response : Type := {
  status_code : Z;
  json_body : option PyVal
}.

(** What [requests.post] does: raise one of its exceptions or return a
    response. *)
Inductive HttpOutcome : Type :=
| Failed (e : RequestsError)
| Responded (r : Response).

(** The world outside the process: the network answers a request (possibly
    depending on the requests made before), and the process leaves three
    traces in it: the calls of [requests.post], the exceptions given to
    [logger.error] and the coroutine objects made by calling [generate]. *)
Record World : Type := {
  network : list Request -> Request -> HttpOutcome;
  posts : list Request;
  error_log : list PyExc;
  coroutines : list (Coroutine (list Message))
}.

Definition requests_post (req : Request) (w : World) : Exc Response * World :=
  let w' := {| network := network w; posts := posts w ++ [req];
               error_log := error_log w; coroutines := coroutines w |} in
  match network w (posts w) req with
  | Failed e => (Raise (RequestException e), w')
  | Responded r => (Ok r, w')
  end.

Definition logger_error (e : PyExc) (w : World) : World :=
  {| network := network w; posts := posts w;
     error_log := error_log w ++ [e]; coroutines := coroutines w |}.

(** [Response.raise_for_status] of [requests]: an [HTTPError] for a client
    error (400 to 499) or a server error (500 to 599), nothing otherwise. *)
Definition raise_for_status (r : Response) : Exc unit :=
  if (400 <=? status_code r) && (status_code r <? 600)
  then Raise (HTTPError (status_code r))
  else Ok tt.

(** [Response.json] *)
Definition response_json (r : Response) : Exc PyVal :=
  match json_body r with
  | Some data => Ok data
  | None => Raise JSONDecodeError
  end.

(** [f"{self.api_key}"] *)
Definition format_api_key (k : option string) : string :=
  match k with
  | None => "None"
  | Some s => s
  end.

Definition default_temperature : float := 0x1.6666666666666p-1%float.
Definition default_max_tokens : Z := 500.

Definition no_response_text : string := "I'm sorry, I couldn't generate a response.".
Definition fallback_text : string := "I'm having trouble connecting. Please try again.".

(** The part of [generate] inside [try], after [requests.post] returned. *)
Definition extract_completion (posted : Exc Response) : Exc PyVal :=
  response <- posted ;;
  _ <- raise_for_status response ;;
  data <- response_json response ;;
  choices <- py_get data "choices" ;;
  cond <- (if truthy choices
           then c <- py_getitem data (KStr "choices") ;;
                n <- py_len c ;;
                Ok (0 <? n)
           else Ok false) ;;
  if cond : bool then
    c <- py_getitem data (KStr "choices") ;;
    c0 <- py_getitem c (KInt 0) ;;
    m <- py_getitem c0 (KStr "message") ;;
    py_getitem m (KStr "content")
  else Ok (PStr no_response_text).

(** The request [generate] hands to [requests.post]. *)
Definition generate_request (self : CerebrasLLM) (messages : list Message)
    (temperature : float) (max_tokens : Z) : Request :=
  let headers := [("Authorization", "Bearer " ++ format_api_key (api_key self));
                  ("Content-Type", "application/json")] in
  let payload := {| p_model := model self; p_messages := messages;
                    p_temperature := temperature; p_max_tokens := max_tokens |} in
  {| req_url := api_url self ++ "/chat/completions";
     req_json := payload; req_headers := headers; req_timeout := 30 |}.

(** The body of [CerebrasLLM.generate], run to its end: what
    [await llm.generate(messages, temperature, max_tokens)] yields.
    [except Exception] turns a caught exception into the fallback text
    after one [logger.error]. *)
Definition generate (self : CerebrasLLM) (messages : list Message)
    (temperature : float) (max_tokens : Z) (w : World) : Exc PyVal * World :=
  let '(posted, w1) :=
    requests_post (generate_request self messages temperature max_tokens) w in
  match extract_completion posted with
  | Ok v => (Ok v, w1)
  | Raise e =>
      if isinstance_Exception e
      then (Ok (PStr fallback_text), logger_error e w1)
      else (Raise e, w1)
  end.

(** Calling the [async def] without awaiting it: the arguments are bound
    into a coroutine object and nothing of the body runs. *)
Definition generate_call {L : Type} (self : CerebrasLLM) (messages : L)
    (temperature : float) (max_tokens : Z) : Coroutine L :=
  {| co_self := self; co_messages := messages;
     co_temperature := temperature; co_max_tokens := max_tokens |}.

(** [await co] *)
Definition await (co : Coroutine (list Message)) (w : World) : Exc PyVal * World :=
  generate (co_self co) (co_messages co) (co_temperature co) (co_max_tokens co) w.

(* ================================================================== *)
(** * Turn handler *)
(* ================================================================== *)

(** A message of the voice pipeline's chat context. *)
Record ChatMessage : Type := {
  cm_role : string;
  cm_content : PyVal
}.

Definition ChatContext : Type := list ChatMessage.

Record ChoiceDelta : Type := {
  delta_content : Content;
  delta_role : string
}.

Record Choice : Type := { delta : ChoiceDelta }.

Record ChatChunk : Type := { choices : list Choice }.

Record CerebrasHandler : Type := {
  cerebras : CerebrasLLM;
  messages : list Message
}.

(** [CerebrasHandler.__init__]; [difficulty] and [topic] are the variables
    of [entrypoint] the class closes over. *)
Definition CerebrasHandler_init (difficulty : string) (topic : option string)
    (cerebras_llm : CerebrasLLM) : CerebrasHandler :=
  {| cerebras := cerebras_llm;
     messages := [ {| role := "system";
                      content := CVal (PStr (build_system_prompt difficulty topic)) |} ] |}.

(** [self.messages.append(m)] *)
Definition append_message (m : Message) (self : CerebrasHandler) : CerebrasHandler :=
  {| cerebras := cerebras self; messages := messages self ++ [m] |}.

(** [await asyncio.to_thread(func, arg)]: [func(arg)] is evaluated in a
    worker thread and its return value is handed back as it is.  For an
    [async def] that value is the coroutine object. *)
Definition to_thread {A B : Type} (func : A -> B) (arg : A) : B := func arg.

(** The list a reference stands for. *)
Definition deref (self : CerebrasHandler) (r : ListRef) : list Message :=
  match r with SelfMessages => messages self end.

Definition resolve (self : CerebrasHandler) (co : Coroutine ListRef)
    : Coroutine (list Message) :=
  generate_call (co_self co) (deref self (co_messages co))
                (co_temperature co) (co_max_tokens co).

Definition record_coroutine (co : Coroutine (list Message)) (w : World) : World :=
  {| network := network w; posts := posts w;
     error_log := error_log w; coroutines := coroutines w ++ [co] |}.

(** [CerebrasHandler.chat].  The result is [None] when the function falls
    off its end. *)
Definition chat (self : CerebrasHandler) (chat_ctx : ChatContext) (w : World)
    : option ChatChunk * CerebrasHandler * World :=
  let user_message :=
    match chat_ctx with
    | [] => PStr ""
    | m :: rest => cm_content (last rest m)
    end in
  if truthy user_message then
    let self := append_message {| role := "user"; content := CVal user_message |} self in
    let response :=
      to_thread (fun msgs => generate_call (cerebras self) msgs
                               default_temperature default_max_tokens)
                SelfMessages in
    let w := record_coroutine (resolve self response) w in
    let self := append_message {| role := "assistant";
                                  content := CCoroutine response |} self in
    (Some {| choices := [ {| delta := {| delta_content := CCoroutine response;
                                          delta_role := "assistant" |} |} ] |},
     self, w)
  else (None, self, w).

(** The handler after a sequence of [chat] calls. *)
Fixpoint chat_all (self : CerebrasHandler) (ctxs : list ChatContext) (w : World)
    : CerebrasHandler * World :=
  match ctxs with
  | [] => (self, w)
  | ctx :: rest =>
      let '(_, self', w') := chat self ctx w in
      chat_all self' rest w'
  end.

(* ================================================================== *)
(** * Session start *)
(* ================================================================== *)

(** [participant.metadata] as [entrypoint] sees it: absent or empty, not
    decodable as a JSON object, or an object; only string-valued entries
    are modelled. *)
Inductive Metadata : Type :=
| MetaAbsent
| MetaMalformed
| MetaObject (kv : list (string * string)).

(** What the collaborators outside the file do when [entrypoint] reaches
    them: the room connection and the construction and start of the voice
    pipeline. *)
Record Collaborators : Type := {
  connect : Exc unit;
  voice_assistant : Exc unit
}.

Definition greeting : string :=
  "Hello! I'm your language teacher. I'm here to help you practice speaking. "
  ++ "What would you like to talk about today?".

Record Session : Type := {
  session_cerebras : CerebrasLLM;
  initial_ctx : ChatContext;
  assistant_llm : CerebrasHandler;
  said : list string
}.

(** [entrypoint]; [getenv] is [os.getenv] on the process environment. *)
Definition entrypoint (getenv : string -> option string) (ext : Collaborators)
    (participant_metadata : Metadata) : Exc Session :=
  let difficulty := "beginner" in
  let topic : option string := None in
  _ <- connect ext ;;
  let '(difficulty, topic) :=
    match participant_metadata with
    | MetaObject metadata =>
        (match dict_lookup "difficulty" metadata with
         | Some d => d
         | None => "beginner"
         end,
         dict_lookup "topic" metadata)
    | _ => (difficulty, topic)
    end in
  let cerebras_api_key := getenv "CEREBRAS_API_KEY" in
  let cerebras := CerebrasLLM_init cerebras_api_key default_api_url in
  let initial_ctx :=
    [ {| cm_role := "system";
         cm_content := PStr (build_system_prompt difficulty topic) |} ] in
  _ <- voice_assistant ext ;;
  let handler := CerebrasHandler_init difficulty topic cerebras in
  Ok {| session_cerebras := cerebras; initial_ctx := initial_ctx;
        assistant_llm := handler; said := [greeting] |}.

(* ================================================================== *)
(** * Vocabulary of the properties *)
(* ================================================================== *)

(** The three enumerated difficulty levels and the clause each one stands
    for in the prompt. *)
Definition levels : list string := ["beginner"; "intermediate"; "advanced"].

Definition clause_of (level : string) : string :=
  if (level =? "beginner")%string then beginner_clause
  else if (level =? "intermediate")%string then intermediate_clause
  else advanced_clause.

(** Of the three clauses, [prompt] contains the one of [level] and no
    other. *)
Definition contains_exactly_clause (level prompt : string) : Prop :=
  forall l, In l levels -> (contains (clause_of l) prompt = true <-> l = level).

(** [s] and [t] differ at a position both of them have. *)
Fixpoint clash (s t : string) : bool :=
  match s, t with
  | String a s', String b t' => if Ascii.eqb a b then clash s' t' else true
  | _, _ => false
  end.

(** [s] clashes with every non-empty suffix of [a]: no occurrence of [s]
    can start inside [a], whatever follows [a]. *)
Fixpoint suffixes_clash (s a : string) : bool :=
  match a with
  | EmptyString => true
  | String _ a' => clash s a && suffixes_clash s a'
  end.

(** Status classes. *)
Definition is_2xx (status : Z) : Prop := 200 <= status < 300.
Definition is_error_status (status : Z) : Prop := 400 <= status < 600.

(** The three kinds of decoded payload the properties of [generate] tell
    apart: one with a [choices[0].message.content], one with no choice
    (the key missing, or a falsy value such as the empty list), and
    anything else. *)
Inductive PayloadShape : Type :=
| HasContent (c : PyVal)
| NoChoices
| Malformed.

Definition payload_shape (data : PyVal) : PayloadShape :=
  match data with
  | PDict d =>
      match dict_lookup "choices" d with
      | None => NoChoices
      | Some ch =>
          if truthy ch then
            match ch with
            | PList (PDict c0 :: _) =>
                match dict_lookup "message" c0 with
                | Some (PDict m) =>
                    match dict_lookup "content" m with
                    | Some c => HasContent c
                    | None => Malformed
                    end
                | _ => Malformed
                end
            | _ => Malformed
            end
          else NoChoices
      end
  | _ => Malformed
  end.

(** The ways a request fails: in transport (connection errors and
    timeouts are exceptions of [requests.post]), by a status that counts
    as bad, by a body that is not JSON, or by a JSON body of the wrong
    shape. *)
Inductive request_fails (bad_status : Z -> Prop) : HttpOutcome -> Prop :=
| fails_transport (e : RequestsError) :
    request_fails bad_status (Failed e)
| fails_status (r : Response) :
    bad_status (status_code r) -> request_fails bad_status (Responded r)
| fails_not_json (r : Response) :
    json_body r = None -> request_fails bad_status (Responded r)
| fails_shape (r : Response) (data : PyVal) :
    json_body r = Some data -> payload_shape data = Malformed ->
    request_fails bad_status (Responded r).

(** What [extract_completion] is to give for each shape. *)
Definition completion_for (shape : PayloadShape) (res : Exc PyVal) : Prop :=
  match shape with
  | HasContent c => res = Ok c
  | NoChoices => res = Ok (PStr no_response_text)
  | Malformed => exists e, res = Raise e /\ isinstance_Exception e = true
  end.

(** A world whose network answers every request with [o]. *)
Definition world_answering (o : HttpOutcome) : World :=
  {| network := fun _ _ => o; posts := []; error_log := []; coroutines := [] |}.

Definition sample_llm : CerebrasLLM := CerebrasLLM_init (Some "csk-test") default_api_url.

Definition sample_messages : list Message :=
  [ {| role := "system"; content := CVal (PStr (build_system_prompt "beginner" None)) |};
    {| role := "user"; content := CVal (PStr "Hello") |} ].

(** A body [{"choices": [{"message": {"content": text}}]}]. *)
Definition completion_body (text : string) : PyVal :=
  PDict [("choices", PList [PDict [("message", PDict [("content", PStr text)])]])].

(** The roles after the first message come in pairs: user, assistant. *)
Fixpoint alternates (log : list Message) : bool :=
  match log with
  | [] => true
  | u :: log' =>
      match log' with
      | [] => false
      | a :: log'' =>
          (role u =? "user")%string && (role a =? "assistant")%string
          && alternates log''
      end
  end.

Definition count_role (r : string) (log : list Message) : nat :=
  List.length (filter (fun m => (role m =? r)%string) log).

(** The shape of a conversation log between two turns: a system message,
    then user and assistant messages in turn. *)
Definition log_invariant (log : list Message) : Prop :=
  match log with
  | [] => False
  | s :: rest => role s = "system" /\ alternates rest = true
  end.

(** [chat_ctx.messages[-1]], when there is one. *)
Definition last_message (chat_ctx : ChatContext) : option ChatMessage :=
  match rev chat_ctx with
  | [] => None
  | m :: _ => Some m
  end.

(** An utterance [chat] is to ignore: no message at all, or a last message
    with empty text. *)
Definition empty_utterance (chat_ctx : ChatContext) : Prop :=
  chat_ctx = [] \/
  exists m, last_message chat_ctx = Some m /\ cm_content m = PStr "".

(** The text [chat] takes as the utterance. *)
Definition utterance (chat_ctx : ChatContext) : PyVal :=
  match last_message chat_ctx with
  | Some m => cm_content m
  | None => PStr ""
  end.

(** The three components of what [chat] returns. *)
Definition chat_chunk (x : option ChatChunk * CerebrasHandler * World)
  : option ChatChunk := fst (fst x).
Definition chat_handler (x : option ChatChunk * CerebrasHandler * World)
  : CerebrasHandler := snd (fst x).
Definition chat_world (x : option ChatChunk * CerebrasHandler * World)
  : World := snd x.

Definition user_says (text : string) : ChatContext :=
  [ {| cm_role := "user"; cm_content := PStr text |} ].

(** An environment with no variable set, and collaborators that work. *)
Definition empty_environ : string -> option string := fun _ => None.

Definition working_collaborators : Collaborators :=
  {| connect := Ok tt; voice_assistant := Ok tt |}.

(** [v.get(k, default)] *)
Definition py_get_default (v : PyVal) (k : string) (default : PyVal) : Exc PyVal :=
  match v with
  | PDict d => Ok (match dict_lookup k d with Some x => x | None => default end)
  | _ => Raise AttributeError
  end.

(** The metadata block of [entrypoint] on values of any JSON type:
    [participant_metadata] is [participant.metadata], [loads] is
    [json.loads].  The two variables keep their defaults unless the
    assignments under [try] are reached; the bare [except] swallows
    whatever is raised. *)
Definition read_participant_metadata (loads : string -> Exc PyVal)
    (participant_metadata : option string) : PyVal * PyVal :=
  let difficulty := PStr "beginner" in
  let topic := PNone in
  match participant_metadata with
  | None => (difficulty, topic)
  | Some raw =>
      if negb (raw =? "")%string then
        match loads raw with
        | Raise _ => (difficulty, topic)
        | Ok metadata =>
            match py_get_default metadata "difficulty" (PStr "beginner") with
            | Raise _ => (difficulty, topic)
            | Ok difficulty =>
                match py_get metadata "topic" with
                | Raise _ => (difficulty, topic)
                | Ok topic => (difficulty, topic)
                end
            end
        end
      else (difficulty, topic)
  end.

(** The topic as the prompt sees it: an absent topic and an empty one are
    the same. *)
Definition effective_topic (topic : option string) : string :=
  match topic with
  | None => ""
  | Some t => t
  end.

(** The number of chat contexts whose utterance [chat] answers. *)
Definition answered (ctxs : list ChatContext) : nat :=
  List.length (filter (fun ctx => truthy (utterance ctx)) ctxs).

(** What a log message holds, by role: a user message a truthy value, an
    assistant message a coroutine object. *)
Definition content_fits_role (m : Message) : Prop :=
  (role m = "user" -> exists v, content m = CVal v /\ truthy v = true) /\
  (role m = "assistant" -> exists co, content m = CCoroutine co).

(** The difficulty and topic [entrypoint] takes from the metadata. *)
Definition metadata_difficulty (participant_metadata : Metadata) : string :=
  match participant_metadata with
  | MetaObject metadata =>
      match dict_lookup "difficulty" metadata with
      | Some d => d
      | None => "beginner"
      end
  | _ => "beginner"
  end.

Definition metadata_topic (participant_metadata : Metadata) : option string :=
  match participant_metadata with
  | MetaObject metadata => dict_lookup "topic" metadata
  | _ => None
  end.

Definition system_message (prompt : string) : Message :=
  {| role := "system"; content := CVal (PStr prompt) |}.

(** The session [entrypoint] starts for a participant whose metadata
    names the topic "travel" only, in an empty environment. *)
Definition sample_session : Session :=
  let llm := CerebrasLLM_init None default_api_url in
  {| session_cerebras := llm;
     initial_ctx := [ {| cm_role := "system";
                         cm_content :=
                           PStr (build_system_prompt "beginner" (Some "travel")) |} ];
     assistant_llm := CerebrasHandler_init "beginner" (Some "travel") llm;
     said := [greeting] |}.

(* ================================================================== *)
(** * Strings *)
(* ================================================================== *)

Section Strings.

Lemma append_assoc (a b c : string) : (a ++ b) ++ c = a ++ b ++ c.
Proof.
  induction a as [|x a IH]; simpl; [reflexivity | now rewrite IH].
Qed.

Lemma append_nil_r (a : string) : a ++ "" = a.
Proof. induction a as [|x a IH]; simpl; [reflexivity | now rewrite IH]. Qed.

Lemma prefix_app (s b : string) : String.prefix s (s ++ b) = true.
Proof.
  induction s as [|x s IH]; simpl.
  - now destruct b.
  - destruct (ascii_dec x x) as [_|ne]; [exact IH | now elim ne].
Qed.

Lemma prefix_inv (s t : string) :
  String.prefix s t = true -> exists b, t = s ++ b.
Proof.
  revert t; induction s as [|x s IH]; intros t H.
  - now exists t.
  - destruct t as [|y t]; simpl in H; [discriminate|].
    destruct (ascii_dec x y) as [->|]; [|discriminate].
    destruct (IH t H) as [b ->]. now exists b.
Qed.

Lemma contains_unfold (s t : string) :
  contains s t =
  String.prefix s t
  || match t with EmptyString => false | String _ r => contains s r end.
Proof. now destruct t. Qed.

(** [contains] is Python's [in]: an occurrence somewhere in the string. *)
Lemma contains_spec (s t : string) :
  contains s t = true <-> exists a b, t = a ++ s ++ b.
Proof.
  split.
  - induction t as [|y t IH]; rewrite contains_unfold; intros H;
      apply orb_true_iff in H as [H|H].
    + destruct (prefix_inv _ _ H) as [b ->]. now exists "", b.
    + discriminate.
    + destruct (prefix_inv _ _ H) as [b ->]. now exists "", b.
    + destruct (IH H) as (a & b & ->). now exists (String y a), b.
  - intros (a & b & ->). induction a as [|x a IH]; simpl append.
    + rewrite contains_unfold, prefix_app. reflexivity.
    + rewrite contains_unfold. fold contains. rewrite IH. apply orb_true_r.
Qed.

Lemma contains_app_l (s a b : string) :
  contains s a = true -> contains s (a ++ b) = true.
Proof.
  rewrite !contains_spec. intros (x & y & ->).
  exists x, (y ++ b). now rewrite !append_assoc.
Qed.

Lemma contains_app_r (s a b : string) :
  contains s b = true -> contains s (a ++ b) = true.
Proof.
  rewrite !contains_spec. intros (x & y & ->).
  exists (a ++ x), y. now rewrite !append_assoc.
Qed.

Lemma contains_refl_app (s b : string) : contains s (s ++ b) = true.
Proof. apply contains_spec. now exists "", b. Qed.

Lemma contains_refl (s : string) : contains s s = true.
Proof. apply contains_spec. exists "", "". now rewrite append_nil_r. Qed.

Lemma clash_prefix_app (s t b : string) :
  clash s t = true -> String.prefix s (t ++ b) = false.
Proof.
  revert t; induction s as [|x s IH]; intros [|y t] H; simpl in *;
    try discriminate.
  destruct (ascii_dec x y) as [->|ne].
  - rewrite Ascii.eqb_refl in H. now apply IH.
  - reflexivity.
Qed.

(** When [s] cannot start inside [a], its occurrences in [a ++ b] are
    those in [b]. *)
Lemma contains_app_clash (s a b : string) :
  suffixes_clash s a = true -> contains s (a ++ b) = contains s b.
Proof.
  induction a as [|x a IH]; intros H; [reflexivity|].
  simpl in H. apply andb_true_iff in H as [Hc Hs].
  rewrite contains_unfold, (clash_prefix_app _ _ b Hc).
  simpl. now apply IH.
Qed.

End Strings.

(* ================================================================== *)
(** * Prompt builder: properties *)
(* ================================================================== *)

Section PromptBuilder.

(** The three steps of [build_system_prompt] laid side by side. *)
Lemma build_system_prompt_parts (difficulty : string) (topic : option string) :
  build_system_prompt difficulty topic =
  (base_instruction ++ clause_of difficulty)
  ++ (if topic_truthy topic then topic_prefix ++ topic_text topic else "").
Proof.
  unfold build_system_prompt, clause_of.
  destruct (difficulty =? "beginner")%string;
    [|destruct (difficulty =? "intermediate")%string];
    destruct (topic_truthy topic);
    rewrite ?append_nil_r, ?append_assoc; reflexivity.
Qed.

Lemma in_levels (l : string) :
  In l levels -> l = "beginner" \/ l = "intermediate" \/ l = "advanced".
Proof. simpl. intuition auto. Qed.

(** No clause of another level occurs in the fixed part of a prompt, nor
    can one start in it and run on into the topic. *)
Lemma other_clause_clashes (l difficulty : string) :
  In l levels -> In difficulty levels -> l <> difficulty ->
  contains (clause_of l) (base_instruction ++ clause_of difficulty) = false /\
  suffixes_clash (clause_of l)
    ((base_instruction ++ clause_of difficulty) ++ topic_prefix) = true.
Proof.
  intros Hl Hd Hne.
  apply in_levels in Hl as [-> | [-> | ->]];
    apply in_levels in Hd as [-> | [-> | ->]];
    try (now elim Hne); split; vm_compute; reflexivity.
Qed.

Lemma no_topic_in_fixed_part (difficulty : string) :
  In difficulty levels ->
  contains "Current topic: " (base_instruction ++ clause_of difficulty) = false.
Proof.
  intros Hd. apply in_levels in Hd as [-> | [-> | ->]];
    vm_compute; reflexivity.
Qed.

(** C3, as stated, fails: the topic is copied into the prompt as it is,
    so a topic that spells out the clause of another level puts that
    clause into a beginner prompt next to the beginner clause. *)
Lemma build_system_prompt_topic_carries_clause :
  ~ contains_exactly_clause "beginner"
      (build_system_prompt "beginner" (Some ("travel" ++ advanced_clause))).
Proof.
  intros H.
  assert (Hin : In "advanced" levels) by (simpl; auto).
  destruct (H "advanced" Hin) as [Habs _].
  assert (Hc : contains (clause_of "advanced")
                 (build_system_prompt "beginner"
                    (Some ("travel" ++ advanced_clause))) = true)
    by (vm_compute; reflexivity).
  specialize (Habs Hc). discriminate Habs.
Qed.

(** C3, amended.  [build_system_prompt] is a total function of its two
    arguments, so it is deterministic and cannot fail.  For a difficulty
    among the three levels and any optional topic, the prompt contains
    the base instruction and the clause of the given level; the clause of
    another level occurs in it exactly when the topic is non-empty and
    the topic text itself contains that clause; and the prompt contains
    the topic clause ["Current topic: <topic>"] if and only if the topic
    is non-empty. *)
Theorem build_system_prompt_contents (difficulty : string) (topic : option string) :
  In difficulty levels ->
  let prompt := build_system_prompt difficulty topic in
  contains base_instruction prompt = true /\
  contains (clause_of difficulty) prompt = true /\
  (forall l, In l levels -> l <> difficulty ->
     (contains (clause_of l) prompt = true <->
      topic_truthy topic = true /\
      contains (clause_of l) (topic_text topic) = true)) /\
  (contains "Current topic: " prompt = true <-> topic_truthy topic = true) /\
  (topic_truthy topic = true ->
     contains ("Current topic: " ++ topic_text topic) prompt = true).
Proof.
  intros Hd prompt. subst prompt.
  rewrite build_system_prompt_parts.
  split; [|split; [|split; [|split]]].
  - rewrite append_assoc. apply contains_refl_app.
  - apply contains_app_l, contains_app_r, contains_refl.
  - intros l Hl Hne.
    destruct (other_clause_clashes l difficulty Hl Hd Hne) as [Hfix Hcl].
    destruct (topic_truthy topic).
    + rewrite <- append_assoc, (contains_app_clash _ _ _ Hcl).
      split; [now split | now intros [_ H]].
    + rewrite append_nil_r, Hfix.
      split; [discriminate | now intros [H _]].
  - destruct (topic_truthy topic).
    + split; [reflexivity | intros _].
      apply contains_app_r, contains_spec.
      exists (nl ++ nl), (topic_text topic). reflexivity.
    + rewrite append_nil_r, (no_topic_in_fixed_part _ Hd). tauto.
  - intros ->. apply contains_app_r, contains_spec.
    exists (nl ++ nl), "". rewrite append_nil_r. reflexivity.
Qed.

Lemma build_system_prompt_contents_witness :
  let prompt := build_system_prompt "intermediate" (Some "travel") in
  contains base_instruction prompt = true /\
  contains (clause_of "intermediate") prompt = true /\
  (forall l, In l levels -> l <> "intermediate" ->
     (contains (clause_of l) prompt = true <->
      topic_truthy (Some "travel") = true /\
      contains (clause_of l) (topic_text (Some "travel")) = true)) /\
  (contains "Current topic: " prompt = true <-> topic_truthy (Some "travel") = true) /\
  (topic_truthy (Some "travel") = true ->
     contains ("Current topic: " ++ topic_text (Some "travel")) prompt = true).
Proof.
  apply (build_system_prompt_contents "intermediate" (Some "travel")).
  simpl. auto.
Defined.

(** C4.  A difficulty that is none of the three levels gets the prompt
    of ["advanced"]: the same text for the same topic, hence the
    advanced clause. *)
Theorem build_system_prompt_unmatched (difficulty : string) (topic : option string) :
  ~ In difficulty levels ->
  build_system_prompt difficulty topic = build_system_prompt "advanced" topic /\
  clause_of difficulty = advanced_clause /\
  contains advanced_clause (build_system_prompt difficulty topic) = true.
Proof.
  intros Hn.
  assert (Hb : (difficulty =? "beginner")%string = false)
    by (apply String.eqb_neq; intros ->; apply Hn; simpl; auto).
  assert (Hi : (difficulty =? "intermediate")%string = false)
    by (apply String.eqb_neq; intros ->; apply Hn; simpl; auto).
  assert (Hc : clause_of difficulty = advanced_clause)
    by (unfold clause_of; now rewrite Hb, Hi).
  repeat split.
  - rewrite !build_system_prompt_parts, Hc. reflexivity.
  - exact Hc.
  - rewrite build_system_prompt_parts, Hc.
    apply contains_app_l, contains_app_r, contains_refl.
Qed.

Lemma build_system_prompt_unmatched_witness :
  build_system_prompt "expert" (Some "travel")
    = build_system_prompt "advanced" (Some "travel") /\
  clause_of "expert" = advanced_clause /\
  contains advanced_clause (build_system_prompt "expert" (Some "travel")) = true.
Proof.
  apply (build_system_prompt_unmatched "expert" (Some "travel")).
  simpl. intros [H | [H | [H | []]]]; discriminate H.
Defined.

End PromptBuilder.

(* ================================================================== *)
(** * Completion client: properties *)
(* ================================================================== *)

Section CompletionClient.

Variables (self : CerebrasLLM) (messages : list Message)
          (temperature : float) (max_tokens : Z) (w : World).

Let req := generate_request self messages temperature max_tokens.
Let outcome := network w (posts w) req.
Let result := fst (generate self messages temperature max_tokens w).

Lemma py_getitem_Exception v k e :
  py_getitem v k = Raise e -> isinstance_Exception e = true.
Proof.
  destruct v, k; simpl;
    repeat match goal with
           | |- context [match ?x with _ => _ end] => destruct x
           end;
    intros H; inversion H; reflexivity.
Qed.

Lemma py_len_Exception v e :
  py_len v = Raise e -> isinstance_Exception e = true.
Proof. destruct v; simpl; intros H; inversion H; reflexivity. Qed.

Lemma py_get_Exception v k e :
  py_get v k = Raise e -> isinstance_Exception e = true.
Proof. destruct v; simpl; intros H; inversion H; reflexivity. Qed.

(** Whatever [extract_completion] raises is an [Exception], provided
    what [requests.post] raised was one. *)
Lemma extract_completion_Exception posted e :
  (forall e', posted = Raise e' -> isinstance_Exception e' = true) ->
  extract_completion posted = Raise e -> isinstance_Exception e = true.
Proof.
  intros Hp. unfold extract_completion.
  destruct posted as [r|e0]; simpl; [|intros H; inversion H; subst; now apply Hp].
  unfold raise_for_status, response_json.
  destruct ((400 <=? status_code r) && (status_code r <? 600)); simpl;
    [intros H; inversion H; reflexivity|].
  destruct (json_body r) as [data|]; simpl; [|intros H; inversion H; reflexivity].
  destruct (py_get data "choices") as [ch|e1] eqn:Hget; simpl;
    [|intros H; inversion H; subst; eapply py_get_Exception; eassumption].
  destruct (truthy ch); simpl; [|intros H; inversion H].
  destruct (py_getitem data (KStr "choices")) as [c|e1] eqn:Hc; simpl;
    [|intros H; inversion H; subst; eapply py_getitem_Exception; eassumption].
  destruct (py_len c) as [n|e1] eqn:Hn; simpl;
    [|intros H; inversion H; subst; eapply py_len_Exception; eassumption].
  destruct (0 <? n); [|intros H; inversion H].
  destruct (py_getitem c (KInt 0)) as [c0|e1] eqn:Hc0; simpl;
    [|intros H; inversion H; subst; eapply py_getitem_Exception; eassumption].
  destruct (py_getitem c0 (KStr "message")) as [m|e1] eqn:Hm; simpl;
    [|intros H; inversion H; subst; eapply py_getitem_Exception; eassumption].
  apply py_getitem_Exception.
Qed.

Lemma requests_post_fst :
  fst (requests_post req w) =
  match outcome with
  | Failed e => Raise (RequestException e)
  | Responded r => Ok r
  end.
Proof. unfold requests_post, outcome. now destruct (network w (posts w) req). Qed.

Lemma generate_result :
  result =
  match extract_completion (fst (requests_post req w)) with
  | Ok v => Ok v
  | Raise e => if isinstance_Exception e then Ok (PStr fallback_text) else Raise e
  end.
Proof.
  unfold result, generate. fold req.
  destruct (requests_post req w) as [posted w1]. simpl.
  destruct (extract_completion posted) as [v|e]; [reflexivity|].
  now destruct (isinstance_Exception e).
Qed.

(** One call of [requests.post] for each run of [generate]. *)
Lemma generate_posts_once :
  posts (snd (generate self messages temperature max_tokens w)) = (posts w ++ [req])%list.
Proof.
  unfold generate. fold req.
  destruct (requests_post req w) as [posted w1] eqn:E.
  assert (Hp : posts w1 = (posts w ++ [req])%list).
  { unfold requests_post in E.
    destruct (network w (posts w) req); inversion E; reflexivity. }
  destruct (extract_completion posted) as [v|e]; [exact Hp|].
  destruct (isinstance_Exception e); exact Hp.
Qed.

Lemma truthy_str_length s :
  truthy (PStr s) = true -> exists c s', s = String c s'.
Proof. destruct s as [|c s']; simpl; [discriminate | now exists c, s']. Qed.

(** What the extraction gives for a response that passes
    [raise_for_status] and decodes as JSON, shape by shape. *)
Lemma extract_completion_shape (r : Response) (data : PyVal) :
  ~ is_error_status (status_code r) ->
  json_body r = Some data ->
  completion_for (payload_shape data) (extract_completion (Ok r)).
Proof.
  intros Hs Hj. unfold extract_completion, raise_for_status, response_json.
  assert (Hst : (400 <=? status_code r) && (status_code r <? 600) = false).
  { apply andb_false_iff. unfold is_error_status in Hs.
    destruct (Z.leb_spec 400 (status_code r)); [right|now left].
    apply Z.ltb_ge. lia. }
  cbn [bind]. rewrite Hst, Hj. cbn [bind].
  destruct data as [| b | z | f | s | l | d];
    try (cbn; eexists; split; reflexivity).
  cbn [py_get payload_shape bind].
  destruct (dict_lookup "choices" d) as [ch|] eqn:Hch; [|reflexivity].
  destruct (truthy ch) eqn:Ht; [|reflexivity].
  cbn [py_getitem bind]. rewrite Hch. cbn [bind].
  destruct ch as [| b | z | f | s | l | d'];
    try discriminate Ht;
    try (cbn; eexists; split; reflexivity).
  - (* a string: its first character is not subscriptable by a key *)
    destruct (truthy_str_length _ Ht) as (c & s' & ->).
    cbn. eexists; split; reflexivity.
  - (* a list *)
    destruct l as [|c0 rest]; [discriminate Ht|].
    cbn [py_len bind List.length]. rewrite Nat2Z.inj_succ.
    replace (0 <? Z.succ (Z.of_nat (List.length rest))) with true
      by (symmetry; apply Z.ltb_lt; lia).
    cbn [py_getitem bind]. unfold py_index.
    replace (Z.of_nat (List.length (c0 :: rest)))
      with (Z.succ (Z.of_nat (List.length rest)))
      by (cbn [List.length]; now rewrite Nat2Z.inj_succ).
    replace ((0 <=? 0) && (0 <? Z.succ (Z.of_nat (List.length rest)))) with true
      by (symmetry; apply andb_true_iff; split;
          [apply Z.leb_le | apply Z.ltb_lt]; lia).
    cbn [Z.to_nat nth_error bind].
    destruct c0 as [| b | z | f | s | l | c0];
      try (cbn; eexists; split; reflexivity).
    cbn [py_getitem bind].
    destruct (dict_lookup "message" c0) as [m|];
      [|cbn; eexists; split; reflexivity].
    cbn [bind].
    destruct m as [| b | z | f | s | l | m];
      try (cbn; eexists; split; reflexivity).
    cbn [py_getitem].
    destruct (dict_lookup "content" m) as [c|];
      [reflexivity | cbn; eexists; split; reflexivity].
  - (* a dict: no key 0 *)
    destruct d' as [|kv rest]; [discriminate Ht|].
    cbn [py_len bind List.length]. rewrite Nat2Z.inj_succ.
    replace (0 <? Z.succ (Z.of_nat (List.length rest))) with true
      by (symmetry; apply Z.ltb_lt; lia).
    cbn. eexists; split; reflexivity.
Qed.

End CompletionClient.

Section CompletionClientClaims.

Variables (self : CerebrasLLM) (messages : list Message)
          (temperature : float) (max_tokens : Z) (w : World).

Lemma raised_gives_fallback (e : PyExc) :
  extract_completion
    (fst (requests_post (generate_request self messages temperature max_tokens) w))
    = Raise e ->
  isinstance_Exception e = true ->
  fst (generate self messages temperature max_tokens w) = Ok (PStr fallback_text).
Proof. intros He Hi. now rewrite generate_result, He, Hi. Qed.

Lemma passes_status (r : Response) :
  is_2xx (status_code r) -> ~ is_error_status (status_code r).
Proof. unfold is_2xx, is_error_status. lia. Qed.

Lemma responded_shape (r : Response) (data : PyVal) :
  network w (posts w) (generate_request self messages temperature max_tokens)
    = Responded r ->
  ~ is_error_status (status_code r) ->
  json_body r = Some data ->
  completion_for (payload_shape data)
    (extract_completion
       (fst (requests_post (generate_request self messages temperature max_tokens) w))).
Proof.
  intros Hn Hs Hj. rewrite requests_post_fst, Hn.
  now apply extract_completion_shape.
Qed.

End CompletionClientClaims.

(** C1, as stated, fails for a status outside 2xx that
    [raise_for_status] lets through: a 300 answer with a well-formed body
    is treated like a success and its content is returned. *)
Lemma generate_status_300_not_fallback :
  let w := world_answering
             (Responded {| status_code := 300;
                           json_body := Some (completion_body "Bonjour") |}) in
  request_fails (fun status => ~ is_2xx status)
    (network w (posts w)
       (generate_request sample_llm sample_messages
          default_temperature default_max_tokens)) /\
  fst (generate sample_llm sample_messages default_temperature default_max_tokens w)
    = Ok (PStr "Bonjour") /\
  fst (generate sample_llm sample_messages default_temperature default_max_tokens w)
    <> Ok (PStr fallback_text).
Proof.
  split; [|split].
  - apply fails_status. unfold is_2xx. simpl. lia.
  - vm_compute. reflexivity.
  - vm_compute. discriminate.
Qed.

(** C1, amended.  For every message list, temperature and max_tokens,
    running [generate] never raises: it returns a value.  Whenever the
    request fails in transport (connection error, timeout), or the status
    is a client or server error (400 to 599), or the body is not JSON, or
    the JSON has neither a [choices[0].message.content] nor an empty or
    missing [choices], the value returned is the fixed text "I'm having
    trouble connecting. Please try again.". *)
Theorem generate_never_raises (self : CerebrasLLM) (messages : list Message)
    (temperature : float) (max_tokens : Z) (w : World) :
  let outcome :=
    network w (posts w) (generate_request self messages temperature max_tokens) in
  let result := fst (generate self messages temperature max_tokens w) in
  (exists v, result = Ok v) /\
  (request_fails is_error_status outcome -> result = Ok (PStr fallback_text)).
Proof.
  intros outcome result. subst result. split.
  - rewrite generate_result.
    destruct (extract_completion _) as [v|e] eqn:He; [now exists v|].
    rewrite (extract_completion_Exception _ e) with (2 := He).
    + now eexists.
    + rewrite requests_post_fst.
      destruct (network _ _ _); intros e' H; inversion H; reflexivity.
  - intros Hf.
    assert (Hr : exists e,
               extract_completion
                 (fst (requests_post
                         (generate_request self messages temperature max_tokens) w))
               = Raise e /\ isinstance_Exception e = true).
    { rewrite requests_post_fst. fold outcome.
      unfold is_error_status in Hf.
      inversion Hf as [e Ho | r Hs Ho | r Hj Ho | r data Hj Hm Ho].
      - eexists; split; reflexivity.
      - unfold extract_completion, raise_for_status. cbn [bind].
        replace ((400 <=? status_code r) && (status_code r <? 600)) with true
          by (symmetry; apply andb_true_iff; split;
              [apply Z.leb_le | apply Z.ltb_lt]; lia).
        eexists; split; reflexivity.
      - unfold extract_completion, raise_for_status, response_json. cbn [bind].
        destruct ((400 <=? status_code r) && (status_code r <? 600));
          [|rewrite Hj]; eexists; split; reflexivity.
      - destruct (Z_le_dec 400 (status_code r)) as [H4|H4];
          [destruct (Z_lt_dec (status_code r) 600) as [H6|H6]|].
        + unfold extract_completion, raise_for_status. cbn [bind].
          replace ((400 <=? status_code r) && (status_code r <? 600)) with true
            by (symmetry; apply andb_true_iff; split;
                [apply Z.leb_le | apply Z.ltb_lt]; lia).
          eexists; split; reflexivity.
        + pose proof (extract_completion_shape r data) as Hsh.
          rewrite Hm in Hsh. apply Hsh; [unfold is_error_status; lia | exact Hj].
        + pose proof (extract_completion_shape r data) as Hsh.
          rewrite Hm in Hsh. apply Hsh; [unfold is_error_status; lia | exact Hj]. }
    destruct Hr as (e & He & Hi).
    now apply raised_gives_fallback with (e := e).
Qed.

Lemma generate_never_raises_witness :
  fst (generate sample_llm sample_messages default_temperature default_max_tokens
         (world_answering (Responded {| status_code := 500; json_body := None |})))
  = Ok (PStr fallback_text).
Proof.
  apply (generate_never_raises sample_llm sample_messages
           default_temperature default_max_tokens
           (world_answering (Responded {| status_code := 500; json_body := None |}))).
  apply fails_status. unfold is_error_status. simpl. lia.
Defined.

(** C5.  When the request succeeds (2xx, a JSON object) and the object
    has no [choices] key or an empty [choices] list, [generate] returns
    the fixed text "I'm sorry, I couldn't generate a response.". *)
Theorem generate_no_choices (self : CerebrasLLM) (messages : list Message)
    (temperature : float) (max_tokens : Z) (w : World)
    (r : Response) (d : list (string * PyVal)) :
  network w (posts w) (generate_request self messages temperature max_tokens)
    = Responded r ->
  is_2xx (status_code r) ->
  json_body r = Some (PDict d) ->
  dict_lookup "choices" d = None \/ dict_lookup "choices" d = Some (PList []) ->
  fst (generate self messages temperature max_tokens w) = Ok (PStr no_response_text).
Proof.
  intros Hn Hs Hj Hc.
  pose proof (responded_shape self messages temperature max_tokens w r (PDict d)
                Hn (passes_status r Hs) Hj) as Hsh.
  assert (Hshape : payload_shape (PDict d) = NoChoices)
    by (unfold payload_shape; destruct Hc as [-> | ->]; reflexivity).
  rewrite Hshape in Hsh. simpl in Hsh.
  now rewrite generate_result, Hsh.
Qed.

Lemma generate_no_choices_witness :
  fst (generate sample_llm sample_messages default_temperature default_max_tokens
         (world_answering
            (Responded {| status_code := 200;
                          json_body := Some (PDict [("choices", PList [])]) |})))
  = Ok (PStr no_response_text).
Proof.
  apply (generate_no_choices sample_llm sample_messages
           default_temperature default_max_tokens
           (world_answering
              (Responded {| status_code := 200;
                            json_body := Some (PDict [("choices", PList [])]) |}))
           {| status_code := 200; json_body := Some (PDict [("choices", PList [])]) |}
           [("choices", PList [])]).
  - reflexivity.
  - unfold is_2xx. simpl. lia.
  - reflexivity.
  - right. reflexivity.
Defined.

(** C6.  When the endpoint answers 2xx with a JSON object whose [choices]
    has a first element carrying [message.content], [generate] returns
    that content as it is. *)
Theorem generate_first_choice (self : CerebrasLLM) (messages : list Message)
    (temperature : float) (max_tokens : Z) (w : World)
    (r : Response) (d c0 m : list (string * PyVal)) (rest : list PyVal)
    (v : PyVal) :
  network w (posts w) (generate_request self messages temperature max_tokens)
    = Responded r ->
  is_2xx (status_code r) ->
  json_body r = Some (PDict d) ->
  dict_lookup "choices" d = Some (PList (PDict c0 :: rest)) ->
  dict_lookup "message" c0 = Some (PDict m) ->
  dict_lookup "content" m = Some v ->
  fst (generate self messages temperature max_tokens w) = Ok v.
Proof.
  intros Hn Hs Hj Hc Hm Hv.
  pose proof (responded_shape self messages temperature max_tokens w r (PDict d)
                Hn (passes_status r Hs) Hj) as Hsh.
  assert (Hshape : payload_shape (PDict d) = HasContent v)
    by (unfold payload_shape; rewrite Hc; cbn [truthy]; now rewrite Hm, Hv).
  rewrite Hshape in Hsh. simpl in Hsh.
  now rewrite generate_result, Hsh.
Qed.

Lemma generate_first_choice_witness :
  fst (generate sample_llm sample_messages default_temperature default_max_tokens
         (world_answering
            (Responded {| status_code := 200;
                          json_body := Some (completion_body "Bonjour !") |})))
  = Ok (PStr "Bonjour !").
Proof.
  apply (generate_first_choice sample_llm sample_messages
           default_temperature default_max_tokens
           (world_answering
              (Responded {| status_code := 200;
                            json_body := Some (completion_body "Bonjour !") |}))
           {| status_code := 200; json_body := Some (completion_body "Bonjour !") |}
           [("choices", PList [PDict [("message", PDict [("content", PStr "Bonjour !")])]])]
           [("message", PDict [("content", PStr "Bonjour !")])]
           [("content", PStr "Bonjour !")]
           []
           (PStr "Bonjour !")).
  - reflexivity.
  - unfold is_2xx. simpl. lia.
  - reflexivity.
  - reflexivity.
  - reflexivity.
  - reflexivity.
Defined.

(* ================================================================== *)
(** * Turn handler: properties *)
(* ================================================================== *)

Section TurnHandler.

Lemma last_message_last (chat_ctx : ChatContext) (d : ChatMessage) :
  chat_ctx <> [] -> last_message chat_ctx = Some (last chat_ctx d).
Proof.
  unfold last_message.
  induction chat_ctx as [|x l _] using rev_ind; intros Hne; [now elim Hne|].
  now rewrite rev_app_distr, last_last.
Qed.

Lemma last_rev_cons (m : ChatMessage) (rest : list ChatMessage) :
  last_message (m :: rest) = Some (last rest m).
Proof.
  rewrite (last_message_last (m :: rest) m) by discriminate.
  now destruct rest.
Qed.

Lemma utterance_empty (chat_ctx : ChatContext) :
  empty_utterance chat_ctx -> truthy (utterance chat_ctx) = false.
Proof.
  unfold utterance. intros [-> | (m & -> & ->)]; reflexivity.
Qed.

(** The two branches of [chat]. *)
Lemma chat_ignored (self : CerebrasHandler) (chat_ctx : ChatContext) (w : World) :
  truthy (utterance chat_ctx) = false ->
  chat self chat_ctx w = (None, self, w).
Proof.
  unfold utterance, chat. destruct chat_ctx as [|m rest]; [reflexivity|].
  rewrite last_rev_cons. now intros ->.
Qed.

Lemma chat_answered (self : CerebrasHandler) (chat_ctx : ChatContext) (w : World) :
  truthy (utterance chat_ctx) = true ->
  let co := generate_call (cerebras self) SelfMessages
              default_temperature default_max_tokens in
  let user := {| role := "user"; content := CVal (utterance chat_ctx) |} in
  let reply := {| role := "assistant"; content := CCoroutine co |} in
  chat self chat_ctx w =
  (Some {| choices := [ {| delta := {| delta_content := CCoroutine co;
                                       delta_role := "assistant" |} |} ] |},
   {| cerebras := cerebras self;
      messages := ((messages self ++ [user]) ++ [reply])%list |},
   record_coroutine
     (generate_call (cerebras self) (messages self ++ [user])%list
        default_temperature default_max_tokens) w).
Proof.
  unfold utterance, chat. destruct chat_ctx as [|m rest]; [discriminate|].
  rewrite last_rev_cons. now intros ->.
Qed.

Lemma alternates_app (log tail : list Message) :
  alternates log = true -> alternates tail = true ->
  alternates (log ++ tail) = true.
Proof.
  intros Hl Ht.
  enough (H : forall l,
             (alternates l = true -> alternates (l ++ tail) = true) /\
             (forall x, alternates (x :: l) = true ->
                        alternates ((x :: l) ++ tail) = true))
    by (now apply H).
  induction l as [|y l [IH1 IH2]]; split.
  - now intros _.
  - intros x H. discriminate H.
  - apply IH2.
  - intros x H. simpl in H. apply andb_true_iff in H as [Hr Ha].
    simpl. rewrite Hr. now apply IH1.
Qed.

Lemma alternates_no_system (log : list Message) :
  alternates log = true -> count_role "system" log = 0%nat.
Proof.
  enough (H : forall l,
             (alternates l = true -> count_role "system" l = 0%nat) /\
             (forall x, alternates (x :: l) = true ->
                        count_role "system" (x :: l) = 0%nat))
    by (apply H).
  unfold count_role.
  induction l as [|y l [IH1 IH2]]; split.
  - reflexivity.
  - intros x H. discriminate H.
  - apply IH2.
  - intros x H. simpl in H.
    apply andb_true_iff in H as [Hr Ha].
    apply andb_true_iff in Hr as [Hu Hs].
    apply String.eqb_eq in Hu, Hs. simpl. rewrite Hu, Hs. simpl.
    now apply IH1.
Qed.

Lemma log_invariant_one_system (log : list Message) :
  log_invariant log -> count_role "system" log = 1%nat.
Proof.
  destruct log as [|s rest]; [intros []|]. intros [Hs Ha].
  unfold count_role. simpl. rewrite Hs. simpl.
  f_equal. now apply alternates_no_system.
Qed.

Lemma log_invariant_init (difficulty : string) (topic : option string)
    (llm : CerebrasLLM) :
  log_invariant (messages (CerebrasHandler_init difficulty topic llm)).
Proof. simpl. now split. Qed.

(** [chat] leaves the log as it is or puts a user message and an
    assistant message, in this order, at its end. *)
Lemma chat_appends (self : CerebrasHandler) (chat_ctx : ChatContext) (w : World) :
  messages (chat_handler (chat self chat_ctx w)) = messages self \/
  exists u a,
    role u = "user" /\ role a = "assistant" /\
    messages (chat_handler (chat self chat_ctx w))
      = (messages self ++ [u; a])%list.
Proof.
  destruct (truthy (utterance chat_ctx)) eqn:Ht.
  - right. rewrite (chat_answered _ _ _ Ht). unfold chat_handler. simpl.
    exists {| role := "user"; content := CVal (utterance chat_ctx) |},
           {| role := "assistant";
              content := CCoroutine (generate_call (cerebras self) SelfMessages
                                       default_temperature default_max_tokens) |}.
    split; [reflexivity | split; [reflexivity|]].
    now rewrite <- app_assoc.
  - left. now rewrite (chat_ignored _ _ _ Ht).
Qed.

Lemma log_invariant_chat (self : CerebrasHandler) (chat_ctx : ChatContext)
    (w : World) :
  log_invariant (messages self) ->
  log_invariant (messages (chat_handler (chat self chat_ctx w))) /\
  hd_error (messages (chat_handler (chat self chat_ctx w)))
    = hd_error (messages self).
Proof.
  intros Hinv.
  destruct (chat_appends self chat_ctx w) as [-> | (u & a & Hu & Ha & ->)];
    [now split|].
  destruct (messages self) as [|s rest]; [destruct Hinv|].
  destruct Hinv as [Hs Halt]. simpl. repeat split; [exact Hs|].
  apply alternates_app; [exact Halt|]. simpl. now rewrite Hu, Ha.
Qed.

Lemma log_invariant_chat_all (ctxs : list ChatContext) :
  forall (self : CerebrasHandler) (w : World),
    log_invariant (messages self) ->
    log_invariant (messages (fst (chat_all self ctxs w))) /\
    hd_error (messages (fst (chat_all self ctxs w))) = hd_error (messages self).
Proof.
  induction ctxs as [|ctx rest IH]; intros self w Hinv; [now split|].
  simpl. destruct (chat self ctx w) as [[chunk self'] w'] eqn:E.
  pose proof (log_invariant_chat self ctx w Hinv) as [Hinv' Hhd].
  rewrite E in Hinv', Hhd. unfold chat_handler in Hinv', Hhd. simpl in Hinv', Hhd.
  destruct (IH self' w' Hinv') as [H1 H2]. split; [exact H1|].
  now rewrite H2.
Qed.

End TurnHandler.

(** [chat] never reaches the network: the coroutine it obtains from
    [to_thread] is stored and handed on, never awaited. *)
Lemma chat_never_posts (self : CerebrasHandler) (chat_ctx : ChatContext) (w : World) :
  posts (chat_world (chat self chat_ctx w)) = posts w /\
  error_log (chat_world (chat self chat_ctx w)) = error_log w.
Proof.
  destruct (truthy (utterance chat_ctx)) eqn:Ht.
  - rewrite (chat_answered _ _ _ Ht). now split.
  - rewrite (chat_ignored _ _ _ Ht). now split.
Qed.

(** The chunk [chat] returns, when it returns one, carries a coroutine
    object and no text. *)
Lemma chat_chunk_is_coroutine (self : CerebrasHandler) (chat_ctx : ChatContext)
    (w : World) (chunk : ChatChunk) :
  chat_chunk (chat self chat_ctx w) = Some chunk ->
  exists co,
    chunk = {| choices := [ {| delta := {| delta_content := CCoroutine co;
                                           delta_role := "assistant" |} |} ] |}.
Proof.
  destruct (truthy (utterance chat_ctx)) eqn:Ht.
  - rewrite (chat_answered _ _ _ Ht). unfold chat_chunk. simpl.
    intros H. inversion H. now eexists.
  - rewrite (chat_ignored _ _ _ Ht). discriminate.
Qed.

(** C2 on the code: a seeded log, the utterance "Hello" and an endpoint
    that would answer "Bonjour !".  Awaited, the [generate] call on the log
    with the new user message returns that text; [chat] appends the user message
    and then an assistant message whose content is the coroutine object of
    the [generate] call, returns a single chunk with the same coroutine
    object, and sends no request. *)
Theorem chat_hello_logs_coroutine :
  let w := world_answering
             (Responded {| status_code := 200;
                           json_body := Some (completion_body "Bonjour !") |}) in
  let h0 := CerebrasHandler_init "beginner" None sample_llm in
  let user := {| role := "user"; content := CVal (PStr "Hello") |} in
  let co := generate_call sample_llm SelfMessages
              default_temperature default_max_tokens in
  let out := chat h0 (user_says "Hello") w in
  fst (await (generate_call sample_llm (messages h0 ++ [user])%list
                default_temperature default_max_tokens) w)
    = Ok (PStr "Bonjour !") /\
  messages (chat_handler out)
    = (messages h0 ++ [user; {| role := "assistant"; content := CCoroutine co |}])%list /\
  chat_chunk out
    = Some {| choices := [ {| delta := {| delta_content := CCoroutine co;
                                          delta_role := "assistant" |} |} ] |} /\
  coroutines (chat_world out)
    = [generate_call sample_llm (messages h0 ++ [user])%list
         default_temperature default_max_tokens] /\
  posts (chat_world out) = [].
Proof.
  repeat split; vm_compute; reflexivity.
Qed.

(** C7.  The log of a new handler is one system message; [chat] keeps the
    shape "a system message, then user and assistant in turn", keeps the
    first element, and changes the log only by appending a user message
    followed by an assistant message; so after any sequence of [chat]
    calls the log has this shape, exactly one system message, and the
    first element it was seeded with. *)
Theorem conversation_log_invariant :
  (forall difficulty topic llm,
     log_invariant (messages (CerebrasHandler_init difficulty topic llm))) /\
  (forall self chat_ctx w,
     log_invariant (messages self) ->
     log_invariant (messages (chat_handler (chat self chat_ctx w))) /\
     hd_error (messages (chat_handler (chat self chat_ctx w)))
       = hd_error (messages self) /\
     (messages (chat_handler (chat self chat_ctx w)) = messages self \/
      exists u a,
        role u = "user" /\ role a = "assistant" /\
        messages (chat_handler (chat self chat_ctx w))
          = (messages self ++ [u; a])%list)) /\
  (forall difficulty topic llm ctxs w,
     let h0 := CerebrasHandler_init difficulty topic llm in
     let h := fst (chat_all h0 ctxs w) in
     log_invariant (messages h) /\
     count_role "system" (messages h) = 1%nat /\
     hd_error (messages h) = hd_error (messages h0)).
Proof.
  split; [|split].
  - apply log_invariant_init.
  - intros self chat_ctx w Hinv.
    destruct (log_invariant_chat self chat_ctx w Hinv) as [H1 H2].
    split; [exact H1 | split; [exact H2 | apply chat_appends]].
  - intros difficulty topic llm ctxs w h0 h.
    destruct (log_invariant_chat_all ctxs h0 w
                (log_invariant_init difficulty topic llm)) as [H1 H2].
    split; [exact H1 | split; [now apply log_invariant_one_system | exact H2]].
Qed.

Lemma conversation_log_invariant_witness :
  let h0 := CerebrasHandler_init "intermediate" (Some "travel") sample_llm in
  let h := chat_handler (chat h0 (user_says "I want to visit Paris")
                           (world_answering (Failed ReadTimeout))) in
  log_invariant (messages h) /\
  hd_error (messages h) = hd_error (messages h0) /\
  (messages h = messages h0 \/
   exists u a,
     role u = "user" /\ role a = "assistant" /\
     messages h = (messages h0 ++ [u; a])%list).
Proof.
  apply (proj1 (proj2 conversation_log_invariant)
           (CerebrasHandler_init "intermediate" (Some "travel") sample_llm)
           (user_says "I want to visit Paris")
           (world_answering (Failed ReadTimeout))).
  simpl. split; reflexivity.
Defined.

(** C9.  When the chat context has no message or its last message has
    empty text, [chat] leaves the handler, and with it the log, as it was,
    and the world too: no request is sent and [generate] is not called. *)
Theorem chat_ignores_empty_utterance (self : CerebrasHandler)
    (chat_ctx : ChatContext) (w : World) :
  empty_utterance chat_ctx ->
  chat_handler (chat self chat_ctx w) = self /\
  messages (chat_handler (chat self chat_ctx w)) = messages self /\
  chat_world (chat self chat_ctx w) = w /\
  posts (chat_world (chat self chat_ctx w)) = posts w /\
  coroutines (chat_world (chat self chat_ctx w)) = coroutines w.
Proof.
  intros He. rewrite (chat_ignored _ _ _ (utterance_empty _ He)).
  repeat split.
Qed.

Lemma chat_ignores_empty_utterance_witness :
  let self := CerebrasHandler_init "beginner" None sample_llm in
  let w := world_answering (Failed ConnectionError) in
  chat_handler (chat self (user_says "") w) = self /\
  messages (chat_handler (chat self (user_says "") w)) = messages self /\
  chat_world (chat self (user_says "") w) = w /\
  posts (chat_world (chat self (user_says "") w)) = posts w /\
  coroutines (chat_world (chat self (user_says "") w)) = coroutines w.
Proof.
  apply (chat_ignores_empty_utterance
           (CerebrasHandler_init "beginner" None sample_llm)
           (user_says "") (world_answering (Failed ConnectionError))).
  right. exists {| cm_role := "user"; cm_content := PStr "" |}.
  split; reflexivity.
Defined.

(** C10.  When the chat context has no message or its last message has
    empty text, [chat] returns [None]: no chunk at all. *)
Theorem chat_returns_none_on_empty (self : CerebrasHandler)
    (chat_ctx : ChatContext) (w : World) :
  empty_utterance chat_ctx ->
  chat_chunk (chat self chat_ctx w) = None.
Proof.
  intros He. now rewrite (chat_ignored _ _ _ (utterance_empty _ He)).
Qed.

Lemma chat_returns_none_on_empty_witness :
  chat_chunk (chat (CerebrasHandler_init "beginner" None sample_llm) []
                (world_answering (Failed ConnectionError))) = None.
Proof.
  apply (chat_returns_none_on_empty
           (CerebrasHandler_init "beginner" None sample_llm) []
           (world_answering (Failed ConnectionError))).
  left. reflexivity.
Defined.

(* ================================================================== *)
(** * Session start: properties *)
(* ================================================================== *)

(** C8, as stated, fails: with no variable set in the environment and
    working collaborators, [entrypoint] raises nothing and the session
    begins. *)
Lemma entrypoint_starts_without_credential :
  ~ (forall getenv ext participant_metadata,
       getenv "CEREBRAS_API_KEY" = None ->
       exists e, entrypoint getenv ext participant_metadata = Raise e).
Proof.
  intros H.
  destruct (H empty_environ working_collaborators MetaAbsent eq_refl) as [e He].
  discriminate He.
Qed.

(** C8, amended.  When [CEREBRAS_API_KEY] is absent, [entrypoint] does
    not check it: as long as the room connection and the voice pipeline
    come up, the session begins, the client and the handler hold the
    credential [None], and every request the client builds carries the
    header [Authorization: Bearer None]. *)
Theorem entrypoint_missing_credential (getenv : string -> option string)
    (ext : Collaborators) (participant_metadata : Metadata) :
  getenv "CEREBRAS_API_KEY" = None ->
  connect ext = Ok tt ->
  voice_assistant ext = Ok tt ->
  exists session,
    entrypoint getenv ext participant_metadata = Ok session /\
    api_key (session_cerebras session) = None /\
    cerebras (assistant_llm session) = session_cerebras session /\
    log_invariant (messages (assistant_llm session)) /\
    forall msgs temperature max_tokens,
      dict_lookup "Authorization"
        (req_headers (generate_request (session_cerebras session)
                        msgs temperature max_tokens))
      = Some "Bearer None".
Proof.
  intros Hkey Hc Hv. unfold entrypoint. rewrite Hc, Hv, Hkey. cbn [bind].
  destruct participant_metadata as [| | metadata];
    eexists; (split; [reflexivity|]); repeat split.
Qed.

Lemma entrypoint_missing_credential_witness :
  exists session,
    entrypoint empty_environ working_collaborators
      (MetaObject [("difficulty", "intermediate"); ("topic", "travel")])
      = Ok session /\
    api_key (session_cerebras session) = None /\
    cerebras (assistant_llm session) = session_cerebras session /\
    log_invariant (messages (assistant_llm session)) /\
    forall msgs temperature max_tokens,
      dict_lookup "Authorization"
        (req_headers (generate_request (session_cerebras session)
                        msgs temperature max_tokens))
      = Some "Bearer None".
Proof.
  apply (entrypoint_missing_credential empty_environ working_collaborators
           (MetaObject [("difficulty", "intermediate"); ("topic", "travel")]));
    reflexivity.
Defined.

(* ================================================================== *)
(** * Completion client: effects and edge cases *)
(* ================================================================== *)

Lemma generate_world (self : CerebrasLLM) (messages : list Message)
    (temperature : float) (max_tokens : Z) (w : World) :
  let req := generate_request self messages temperature max_tokens in
  let w' := snd (generate self messages temperature max_tokens w) in
  posts w' = (posts w ++ [req])%list /\
  coroutines w' = coroutines w /\
  network w' = network w /\
  error_log w' =
    match extract_completion (fst (requests_post req w)) with
    | Ok _ => error_log w
    | Raise e =>
        if isinstance_Exception e then (error_log w ++ [e])%list else error_log w
    end.
Proof.
  intros req w'. subst w'. unfold generate. fold req.
  destruct (requests_post req w) as [posted w1] eqn:E.
  assert (Hw : posts w1 = (posts w ++ [req])%list /\
               coroutines w1 = coroutines w /\
               network w1 = network w /\ error_log w1 = error_log w).
  { unfold requests_post in E.
    destruct (network w (posts w) req); inversion E; repeat split. }
  destruct Hw as (Hp & Hc & Hn & He). cbn [fst].
  destruct (extract_completion posted) as [v|e]; [now repeat split|].
  destruct (isinstance_Exception e); cbn [snd logger_error posts coroutines
    network error_log]; rewrite ?He; now repeat split.
Qed.

Lemma error_status_rejected (r : Response) :
  is_error_status (status_code r) ->
  extract_completion (Ok r) = Raise (HTTPError (status_code r)).
Proof.
  intros Hs. unfold is_error_status in Hs.
  unfold extract_completion, raise_for_status. cbn [bind].
  replace ((400 <=? status_code r) && (status_code r <? 600)) with true
    by (symmetry; apply andb_true_iff; split;
        [apply Z.leb_le | apply Z.ltb_lt]; lia).
  reflexivity.
Qed.

Lemma is_error_status_dec (status : Z) :
  {is_error_status status} + {~ is_error_status status}.
Proof.
  unfold is_error_status.
  destruct (Z_le_dec 400 status); [destruct (Z_lt_dec status 600)|];
    [left | right | right]; lia.
Qed.

(** A failed request makes the [try] block raise an [Exception]. *)
Lemma failed_request_raises (self : CerebrasLLM) (messages : list Message)
    (temperature : float) (max_tokens : Z) (w : World) :
  request_fails is_error_status
    (network w (posts w) (generate_request self messages temperature max_tokens)) ->
  exists e,
    extract_completion
      (fst (requests_post (generate_request self messages temperature max_tokens) w))
    = Raise e /\ isinstance_Exception e = true.
Proof.
  intros Hf. rewrite requests_post_fst.
  inversion Hf as [e Ho | r Hs Ho | r Hj Ho | r data Hj Hm Ho].
  - eexists; split; reflexivity.
  - rewrite (error_status_rejected r Hs). eexists; split; reflexivity.
  - destruct (is_error_status_dec (status_code r)) as [Hs|Hs].
    + rewrite (error_status_rejected r Hs). eexists; split; reflexivity.
    + unfold extract_completion, raise_for_status, response_json. cbn [bind].
      destruct ((400 <=? status_code r) && (status_code r <? 600));
        [|rewrite Hj]; eexists; split; reflexivity.
  - destruct (is_error_status_dec (status_code r)) as [Hs|Hs].
    + rewrite (error_status_rejected r Hs). eexists; split; reflexivity.
    + pose proof (extract_completion_shape r data Hs Hj) as Hsh.
      now rewrite Hm in Hsh.
Qed.

(** X1.  Whatever the network does, one run of [generate] calls
    [requests.post] exactly once, with the URL [api_url/chat/completions],
    timeout 30, the client's model and the messages, temperature and
    max_tokens it was given, and it creates no coroutine. *)
Theorem generate_posts_one_request (self : CerebrasLLM) (messages : list Message)
    (temperature : float) (max_tokens : Z) (w : World) :
  exists req,
    posts (snd (generate self messages temperature max_tokens w))
      = (posts w ++ [req])%list /\
    req_url req = api_url self ++ "/chat/completions" /\
    req_timeout req = 30 /\
    p_model (req_json req) = model self /\
    p_messages (req_json req) = messages /\
    p_temperature (req_json req) = temperature /\
    p_max_tokens (req_json req) = max_tokens /\
    dict_lookup "Authorization" (req_headers req)
      = Some ("Bearer " ++ format_api_key (api_key self)) /\
    coroutines (snd (generate self messages temperature max_tokens w))
      = coroutines w.
Proof.
  exists (generate_request self messages temperature max_tokens).
  destruct (generate_world self messages temperature max_tokens w)
    as (Hp & Hc & _ & _).
  repeat split; assumption.
Qed.

(** X2.  [generate] writes to the error log exactly when it falls back:
    a failed request (transport, 4xx/5xx, undecodable or ill-shaped body)
    adds one entry and the fallback text is returned; a response that
    passes the status check with content or with no choices adds none. *)
Theorem generate_logs_failures_only (self : CerebrasLLM) (messages : list Message)
    (temperature : float) (max_tokens : Z) (w : World) :
  let outcome :=
    network w (posts w) (generate_request self messages temperature max_tokens) in
  let out := generate self messages temperature max_tokens w in
  (request_fails is_error_status outcome ->
   fst out = Ok (PStr fallback_text) /\
   exists e, error_log (snd out) = (error_log w ++ [e])%list) /\
  (forall r data,
     outcome = Responded r ->
     ~ is_error_status (status_code r) ->
     json_body r = Some data ->
     payload_shape data <> Malformed ->
     error_log (snd out) = error_log w).
Proof.
  intros outcome out. subst out.
  destruct (generate_world self messages temperature max_tokens w)
    as (_ & _ & _ & Hlog).
  split.
  - intros Hf.
    pose proof (failed_request_raises self messages temperature max_tokens w Hf)
      as (e & He & Hi).
    split; [now apply raised_gives_fallback with (e := e)|].
    exists e. now rewrite Hlog, He, Hi.
  - intros r data Ho Hs Hj Hm.
    pose proof (responded_shape self messages temperature max_tokens w r data
                  Ho Hs Hj) as Hsh.
    rewrite Hlog.
    destruct (payload_shape data); simpl in Hsh;
      [now rewrite Hsh | now rewrite Hsh | now elim Hm].
Qed.

Lemma extract_completion_status (r : Response) (status : Z) :
  ~ is_error_status (status_code r) ->
  ~ is_error_status status ->
  extract_completion (Ok r)
  = extract_completion (Ok {| status_code := status; json_body := json_body r |}).
Proof.
  intros H1 H2. unfold extract_completion, raise_for_status, response_json.
  cbn [bind status_code json_body].
  replace ((400 <=? status_code r) && (status_code r <? 600)) with false.
  - replace ((400 <=? status) && (status <? 600)) with false; [reflexivity|].
    symmetry. apply andb_false_iff. unfold is_error_status in H2.
    destruct (Z.leb_spec 400 status); [right; apply Z.ltb_ge; lia | now left].
  - symmetry. apply andb_false_iff. unfold is_error_status in H1.
    destruct (Z.leb_spec 400 (status_code r));
      [right; apply Z.ltb_ge; lia | now left].
Qed.

(** X3.  Apart from the 4xx/5xx check the status plays no part: two
    responses with the same body whose statuses both lie outside 400 to
    599 (a 200 and a 304, say) make [generate] return the same value. *)
Theorem generate_ignores_passing_status (self : CerebrasLLM)
    (messages : list Message) (temperature : float) (max_tokens : Z)
    (w1 w2 : World) (r1 r2 : Response) :
  network w1 (posts w1) (generate_request self messages temperature max_tokens)
    = Responded r1 ->
  network w2 (posts w2) (generate_request self messages temperature max_tokens)
    = Responded r2 ->
  ~ is_error_status (status_code r1) ->
  ~ is_error_status (status_code r2) ->
  json_body r1 = json_body r2 ->
  fst (generate self messages temperature max_tokens w1)
  = fst (generate self messages temperature max_tokens w2).
Proof.
  intros Hn1 Hn2 Hs1 Hs2 Hb.
  rewrite !generate_result, !requests_post_fst, Hn1, Hn2.
  rewrite (extract_completion_status r1 (status_code r2) Hs1 Hs2), Hb.
  now destruct r2.
Qed.

Lemma generate_ignores_passing_status_witness :
  fst (generate sample_llm sample_messages default_temperature default_max_tokens
         (world_answering
            (Responded {| status_code := 200;
                          json_body := Some (completion_body "Bonjour") |})))
  = fst (generate sample_llm sample_messages default_temperature default_max_tokens
           (world_answering
              (Responded {| status_code := 304;
                            json_body := Some (completion_body "Bonjour") |}))).
Proof.
  apply (generate_ignores_passing_status sample_llm sample_messages
           default_temperature default_max_tokens
           (world_answering
              (Responded {| status_code := 200;
                            json_body := Some (completion_body "Bonjour") |}))
           (world_answering
              (Responded {| status_code := 304;
                            json_body := Some (completion_body "Bonjour") |}))
           {| status_code := 200; json_body := Some (completion_body "Bonjour") |}
           {| status_code := 304; json_body := Some (completion_body "Bonjour") |}).
  - reflexivity.
  - reflexivity.
  - unfold is_error_status. simpl. lia.
  - unfold is_error_status. simpl. lia.
  - reflexivity.
Defined.

(** X4.  Any falsy [choices] value counts as "no choice": for a response
    that passes the status check and whose object maps [choices] to
    [null], [false], [0], [0.0], the empty string, list or object,
    [generate] returns the apology text. *)
Theorem generate_falsy_choices (self : CerebrasLLM) (messages : list Message)
    (temperature : float) (max_tokens : Z) (w : World)
    (r : Response) (d : list (string * PyVal)) (ch : PyVal) :
  network w (posts w) (generate_request self messages temperature max_tokens)
    = Responded r ->
  ~ is_error_status (status_code r) ->
  json_body r = Some (PDict d) ->
  dict_lookup "choices" d = Some ch ->
  truthy ch = false ->
  fst (generate self messages temperature max_tokens w) = Ok (PStr no_response_text).
Proof.
  intros Hn Hs Hj Hc Ht.
  pose proof (responded_shape self messages temperature max_tokens w r (PDict d)
                Hn Hs Hj) as Hsh.
  assert (Hshape : payload_shape (PDict d) = NoChoices)
    by (unfold payload_shape; now rewrite Hc, Ht).
  rewrite Hshape in Hsh. simpl in Hsh.
  now rewrite generate_result, Hsh.
Qed.

Lemma generate_falsy_choices_witness :
  fst (generate sample_llm sample_messages default_temperature default_max_tokens
         (world_answering
            (Responded {| status_code := 200;
                          json_body := Some (PDict [("choices", PNone)]) |})))
  = Ok (PStr no_response_text).
Proof.
  apply (generate_falsy_choices sample_llm sample_messages
           default_temperature default_max_tokens
           (world_answering
              (Responded {| status_code := 200;
                            json_body := Some (PDict [("choices", PNone)]) |}))
           {| status_code := 200; json_body := Some (PDict [("choices", PNone)]) |}
           [("choices", PNone)] PNone).
  - reflexivity.
  - unfold is_error_status. simpl. lia.
  - reflexivity.
  - reflexivity.
  - reflexivity.
Defined.

(** X5.  A truthy [choices] that is not a list (a non-empty string or
    object, a non-zero number, [true]) makes the extraction raise inside
    [try]: [generate] returns the fallback text, not the apology. *)
Theorem generate_choices_not_a_list (self : CerebrasLLM) (messages : list Message)
    (temperature : float) (max_tokens : Z) (w : World)
    (r : Response) (d : list (string * PyVal)) (ch : PyVal) :
  network w (posts w) (generate_request self messages temperature max_tokens)
    = Responded r ->
  json_body r = Some (PDict d) ->
  dict_lookup "choices" d = Some ch ->
  truthy ch = true ->
  (forall l, ch <> PList l) ->
  fst (generate self messages temperature max_tokens w) = Ok (PStr fallback_text).
Proof.
  intros Hn Hj Hc Ht Hl.
  assert (Hshape : payload_shape (PDict d) = Malformed).
  { unfold payload_shape. rewrite Hc, Ht.
    destruct ch; try reflexivity. now elim (Hl l). }
  destruct (failed_request_raises self messages temperature max_tokens w)
    as (e & He & Hi).
  - rewrite Hn. now apply fails_shape with (data := PDict d).
  - now apply raised_gives_fallback with (e := e).
Qed.

Lemma generate_choices_not_a_list_witness :
  fst (generate sample_llm sample_messages default_temperature default_max_tokens
         (world_answering
            (Responded {| status_code := 200;
                          json_body := Some (PDict [("choices", PStr "none")]) |})))
  = Ok (PStr fallback_text).
Proof.
  apply (generate_choices_not_a_list sample_llm sample_messages
           default_temperature default_max_tokens
           (world_answering
              (Responded {| status_code := 200;
                            json_body := Some (PDict [("choices", PStr "none")]) |}))
           {| status_code := 200; json_body := Some (PDict [("choices", PStr "none")]) |}
           [("choices", PStr "none")] (PStr "none")).
  - reflexivity.
  - reflexivity.
  - reflexivity.
  - reflexivity.
  - intros l H. discriminate H.
Defined.

(** X6.  Only the first element of [choices] is read: two responses that
    pass the status check and whose [choices] lists start with the same
    element give the same result, whatever the other choices and the
    other keys of the two objects are. *)
Theorem generate_reads_first_choice_only (self : CerebrasLLM)
    (messages : list Message) (temperature : float) (max_tokens : Z)
    (w1 w2 : World) (r1 r2 : Response) (d1 d2 : list (string * PyVal))
    (c0 : PyVal) (rest1 rest2 : list PyVal) :
  network w1 (posts w1) (generate_request self messages temperature max_tokens)
    = Responded r1 ->
  network w2 (posts w2) (generate_request self messages temperature max_tokens)
    = Responded r2 ->
  ~ is_error_status (status_code r1) ->
  ~ is_error_status (status_code r2) ->
  json_body r1 = Some (PDict d1) ->
  json_body r2 = Some (PDict d2) ->
  dict_lookup "choices" d1 = Some (PList (c0 :: rest1)) ->
  dict_lookup "choices" d2 = Some (PList (c0 :: rest2)) ->
  fst (generate self messages temperature max_tokens w1)
  = fst (generate self messages temperature max_tokens w2).
Proof.
  intros Hn1 Hn2 Hs1 Hs2 Hj1 Hj2 Hc1 Hc2.
  pose proof (responded_shape self messages temperature max_tokens w1 r1 (PDict d1)
                Hn1 Hs1 Hj1) as Hsh1.
  pose proof (responded_shape self messages temperature max_tokens w2 r2 (PDict d2)
                Hn2 Hs2 Hj2) as Hsh2.
  assert (Hshape : payload_shape (PDict d1) = payload_shape (PDict d2))
    by (unfold payload_shape; now rewrite Hc1, Hc2).
  rewrite <- Hshape in Hsh2. rewrite !generate_result.
  destruct (payload_shape (PDict d1)); simpl in Hsh1, Hsh2.
  - now rewrite Hsh1, Hsh2.
  - now rewrite Hsh1, Hsh2.
  - destruct Hsh1 as (e1 & -> & ->). destruct Hsh2 as (e2 & -> & ->).
    reflexivity.
Qed.

Lemma generate_reads_first_choice_only_witness :
  fst (generate sample_llm sample_messages default_temperature default_max_tokens
         (world_answering
            (Responded
               {| status_code := 200;
                  json_body :=
                    Some (PDict [("choices",
                                  PList [PDict [("message",
                                                 PDict [("content", PStr "un")])];
                                         PStr "deux"])]) |})))
  = fst (generate sample_llm sample_messages default_temperature default_max_tokens
           (world_answering
              (Responded
                 {| status_code := 201;
                    json_body :=
                      Some (PDict [("id", PInt 7);
                                   ("choices",
                                    PList [PDict [("message",
                                                   PDict [("content", PStr "un")])]])]) |}))).
Proof.
  eapply (generate_reads_first_choice_only sample_llm sample_messages
            default_temperature default_max_tokens
            (world_answering (Responded {| status_code := 200; json_body := _ |}))
            (world_answering (Responded {| status_code := 201; json_body := _ |}))).
  - reflexivity.
  - reflexivity.
  - unfold is_error_status. simpl. lia.
  - unfold is_error_status. simpl. lia.
  - reflexivity.
  - reflexivity.
  - reflexivity.
  - reflexivity.
Defined.

(* ================================================================== *)
(** * Prompt builder: the prompt determines its inputs *)
(* ================================================================== *)

Lemma append_cancel_l (a b c : string) : a ++ b = a ++ c -> b = c.
Proof.
  induction a as [|x a IH]; simpl; intros H; [exact H|].
  inversion H. now apply IH.
Qed.

Lemma clash_app_neq (s t x y : string) :
  clash s t = true -> s ++ x <> t ++ y.
Proof.
  revert t; induction s as [|a s IH]; intros [|b t] H; simpl in *;
    try discriminate.
  intros E. inversion E; subst.
  rewrite Ascii.eqb_refl in H. now apply (IH t H).
Qed.

Lemma clauses_clash (d1 d2 : string) :
  In d1 levels -> In d2 levels -> d1 <> d2 ->
  clash (clause_of d1) (clause_of d2) = true.
Proof.
  intros H1 H2 Hne.
  apply in_levels in H1 as [-> | [-> | ->]];
    apply in_levels in H2 as [-> | [-> | ->]];
    try (now elim Hne); vm_compute; reflexivity.
Qed.

Lemma topic_truthy_effective (topic : option string) :
  topic_truthy topic = false -> effective_topic topic = "".
Proof.
  destruct topic as [t|]; simpl; [|reflexivity].
  destruct (String.eqb_spec t ""); [auto | discriminate].
Qed.

Lemma topic_truthy_text (topic : option string) :
  topic_truthy topic = true -> topic_text topic = effective_topic topic.
Proof. destruct topic; [reflexivity | discriminate]. Qed.

(** X7.  For difficulties among the three levels the prompt determines
    the configuration: two prompts are equal exactly when the levels are
    equal and the topics are, an absent topic counting as the empty one. *)
Theorem build_system_prompt_injective (d1 d2 : string) (t1 t2 : option string) :
  In d1 levels -> In d2 levels ->
  (build_system_prompt d1 t1 = build_system_prompt d2 t2 <->
   d1 = d2 /\ effective_topic t1 = effective_topic t2).
Proof.
  intros H1 H2. rewrite !build_system_prompt_parts. split.
  - intros E. rewrite !append_assoc in E. apply append_cancel_l in E.
    destruct (string_dec d1 d2) as [<- | Hne].
    + split; [reflexivity|]. apply append_cancel_l in E.
      destruct (topic_truthy t1) eqn:Ht1, (topic_truthy t2) eqn:Ht2.
      * apply append_cancel_l in E.
        now rewrite <- !topic_truthy_text by assumption.
      * destruct (topic_text t1); discriminate E.
      * destruct (topic_text t2); discriminate E.
      * now rewrite !topic_truthy_effective by assumption.
    + exfalso. now apply (clash_app_neq _ _ _ _ (clauses_clash d1 d2 H1 H2 Hne)) in E.
  - intros [<- Ht]. f_equal.
    destruct t1 as [a|], t2 as [b|]; simpl in Ht; subst; reflexivity.
Qed.

Lemma build_system_prompt_injective_witness :
  build_system_prompt "beginner" None = build_system_prompt "beginner" (Some "") <->
  "beginner" = "beginner" /\ effective_topic None = effective_topic (Some "").
Proof.
  apply (build_system_prompt_injective "beginner" "beginner" None (Some ""));
    simpl; auto.
Defined.

(* ================================================================== *)
(** * Turn handler: sequences of calls *)
(* ================================================================== *)

Lemma utterance_last (before : ChatContext) (m : ChatMessage) :
  utterance (before ++ [m])%list = cm_content m.
Proof.
  unfold utterance, last_message. now rewrite rev_app_distr.
Qed.

Lemma chat_by_utterance (self : CerebrasHandler) (ctx1 ctx2 : ChatContext)
    (w : World) :
  utterance ctx1 = utterance ctx2 -> chat self ctx1 w = chat self ctx2 w.
Proof.
  intros E. destruct (truthy (utterance ctx1)) eqn:Ht.
  - rewrite (chat_answered self ctx1 w Ht).
    rewrite E in Ht. rewrite (chat_answered self ctx2 w Ht). now rewrite E.
  - rewrite (chat_ignored self ctx1 w Ht).
    rewrite E in Ht. now rewrite (chat_ignored self ctx2 w Ht).
Qed.

(** X8.  [chat] reads nothing of the chat context but the content of its
    last message: the messages before it and the role of the last one
    (user, assistant or system) make no difference to the returned chunk,
    the handler or the world. *)
Theorem chat_reads_last_content_only (self : CerebrasHandler)
    (before : ChatContext) (m : ChatMessage) (any_role : string) (w : World) :
  chat self (before ++ [m])%list w
  = chat self [ {| cm_role := any_role; cm_content := cm_content m |} ] w.
Proof.
  apply chat_by_utterance.
  rewrite utterance_last.
  exact (eq_sym (utterance_last [] {| cm_role := any_role;
                                      cm_content := cm_content m |})).
Qed.

Lemma answered_cons (ctx : ChatContext) (rest : list ChatContext) :
  answered (ctx :: rest)
  = ((if truthy (utterance ctx) then 1 else 0) + answered rest)%nat.
Proof. unfold answered. simpl. now destruct (truthy (utterance ctx)). Qed.

(** One call of [chat], as far as the log and the traces go. *)
Lemma chat_step (self : CerebrasHandler) (ctx : ChatContext) (w : World) :
  let out := chat self ctx w in
  let n := if truthy (utterance ctx) then 1%nat else 0%nat in
  cerebras (chat_handler out) = cerebras self /\
  (exists suffix,
     messages (chat_handler out) = (messages self ++ suffix)%list /\
     List.length suffix = (2 * n)%nat /\
     Forall content_fits_role suffix) /\
  List.length (coroutines (chat_world out))
    = (List.length (coroutines w) + n)%nat /\
  posts (chat_world out) = posts w /\
  error_log (chat_world out) = error_log w /\
  network (chat_world out) = network w.
Proof.
  intros out n. subst out n.
  destruct (truthy (utterance ctx)) eqn:Ht.
  - rewrite (chat_answered self ctx w Ht).
    unfold chat_handler, chat_world. cbn [fst snd cerebras messages].
    split; [reflexivity|]. split.
    + eexists. split; [symmetry; apply app_assoc|]. split; [reflexivity|].
      repeat constructor; cbn [role content]; intros H; try discriminate H.
      * now exists (utterance ctx).
      * now eexists.
    + unfold record_coroutine. cbn [coroutines posts error_log network].
      rewrite length_app. now repeat split.
  - rewrite (chat_ignored self ctx w Ht).
    unfold chat_handler, chat_world. cbn [fst snd].
    split; [reflexivity|]. split.
    + exists []. rewrite app_nil_r. now repeat split.
    + rewrite Nat.add_0_r. now repeat split.
Qed.

(** X9.  The log is append-only and grows by two per answered utterance:
    after any sequence of [chat] calls the old log is a prefix of the new
    one, the new part has twice as many messages as there were non-empty
    utterances, and [generate] was called once for each of them. *)
Theorem chat_all_appends (ctxs : list ChatContext) :
  forall (self : CerebrasHandler) (w : World),
    let out := chat_all self ctxs w in
    exists suffix,
      messages (fst out) = (messages self ++ suffix)%list /\
      List.length suffix = (2 * answered ctxs)%nat /\
      List.length (coroutines (snd out))
        = (List.length (coroutines w) + answered ctxs)%nat.
Proof.
  induction ctxs as [|ctx rest IH]; intros self w out; subst out.
  - exists []. rewrite app_nil_r. unfold answered. simpl.
    now rewrite Nat.add_0_r.
  - pose proof (chat_step self ctx w) as (_ & (s1 & Hm & Hl & _) & Hc & _).
    simpl. destruct (chat self ctx w) as [[chunk self'] w'].
    unfold chat_handler, chat_world in *. cbn [fst snd] in *.
    destruct (IH self' w') as (s2 & Hm2 & Hl2 & Hc2).
    exists (s1 ++ s2)%list. rewrite Hm2, Hm, Hc2, Hc, answered_cons.
    rewrite <- app_assoc, length_app, Hl, Hl2.
    split; [reflexivity | split; lia].
Qed.

(** X10.  No sequence of [chat] calls reaches the network: the list of
    [requests.post] calls and the error log stay as they were (the
    coroutine objects are never awaited), and the handler keeps its
    client. *)
Theorem chat_all_never_posts (ctxs : list ChatContext) :
  forall (self : CerebrasHandler) (w : World),
    posts (snd (chat_all self ctxs w)) = posts w /\
    error_log (snd (chat_all self ctxs w)) = error_log w /\
    network (snd (chat_all self ctxs w)) = network w /\
    cerebras (fst (chat_all self ctxs w)) = cerebras self.
Proof.
  induction ctxs as [|ctx rest IH]; intros self w; [now repeat split|].
  pose proof (chat_step self ctx w) as (Hk & _ & _ & Hp & He & Hn).
  simpl. destruct (chat self ctx w) as [[chunk self'] w'].
  unfold chat_handler, chat_world in *. cbn [fst snd] in *.
  destruct (IH self' w') as (Hp' & He' & Hn' & Hk').
  rewrite Hp', He', Hn', Hk'. now repeat split.
Qed.



(* ================================================================== *)
(** * Session start: what the session is made of *)
(* ================================================================== *)

Lemma entrypoint_started (getenv : string -> option string) (ext : Collaborators)
    (participant_metadata : Metadata) :
  connect ext = Ok tt ->
  voice_assistant ext = Ok tt ->
  let difficulty := metadata_difficulty participant_metadata in
  let topic := metadata_topic participant_metadata in
  let llm := CerebrasLLM_init (getenv "CEREBRAS_API_KEY") default_api_url in
  entrypoint getenv ext participant_metadata =
  Ok {| session_cerebras := llm;
        initial_ctx := [ {| cm_role := "system";
                            cm_content := PStr (build_system_prompt difficulty topic) |} ];
        assistant_llm := CerebrasHandler_init difficulty topic llm;
        said := [greeting] |}.
Proof.
  intros Hc Hv. unfold entrypoint. rewrite Hc, Hv. cbn [bind].
  now destruct participant_metadata.
Qed.


(** X13.  A started session is seeded twice with one and the same prompt:
    the system message of the pipeline's chat context and the single
    message of the handler's log carry the same text, the handler holds
    the session's client, and the greeting is the only thing said. *)
Theorem entrypoint_seeds_one_prompt (getenv : string -> option string)
    (ext : Collaborators) (participant_metadata : Metadata) (session : Session) :
  entrypoint getenv ext participant_metadata = Ok session ->
  exists prompt,
    initial_ctx session = [ {| cm_role := "system"; cm_content := PStr prompt |} ] /\
    messages (assistant_llm session) = [system_message prompt] /\
    cerebras (assistant_llm session) = session_cerebras session /\
    contains base_instruction prompt = true /\
    said session = [greeting].
Proof.
  intros H.
  assert (Hc : connect ext = Ok tt).
  { unfold entrypoint in H. destruct (connect ext) as [[]|]; [reflexivity|].
    discriminate H. }
  assert (Hv : voice_assistant ext = Ok tt).
  { unfold entrypoint in H. rewrite Hc in H. cbn [bind] in H.
    destruct participant_metadata;
      (destruct (voice_assistant ext) as [[]|]; [reflexivity | discriminate H]). }
  rewrite (entrypoint_started getenv ext participant_metadata Hc Hv) in H.
  inversion H; subst; clear H. eexists. repeat split.
  rewrite build_system_prompt_parts, append_assoc. apply contains_refl_app.
Qed.

Lemma entrypoint_seeds_one_prompt_witness :
  exists prompt,
    initial_ctx sample_session
      = [ {| cm_role := "system"; cm_content := PStr prompt |} ] /\
    messages (assistant_llm sample_session) = [system_message prompt] /\
    cerebras (assistant_llm sample_session) = session_cerebras sample_session /\
    contains base_instruction prompt = true /\
    said sample_session = [greeting].
Proof.
  apply (entrypoint_seeds_one_prompt empty_environ working_collaborators
           (MetaObject [("topic", "travel")]) sample_session).
  reflexivity.
Defined.

Lemma clause_of_unmatched (difficulty : string) :
  ~ In difficulty levels -> clause_of difficulty = advanced_clause.
Proof.
  intros Hn. unfold clause_of.
  destruct (String.eqb_spec difficulty "beginner") as [->|_];
    [elim Hn; simpl; auto|].
  destruct (String.eqb_spec difficulty "intermediate") as [->|_];
    [elim Hn; simpl; auto|].
  reflexivity.
Qed.

Lemma entrypoint_ok_inv (getenv : string -> option string) (ext : Collaborators)
    (participant_metadata : Metadata) (session : Session) :
  entrypoint getenv ext participant_metadata = Ok session ->
  session =
  {| session_cerebras := CerebrasLLM_init (getenv "CEREBRAS_API_KEY") default_api_url;
     initial_ctx :=
       [ {| cm_role := "system";
            cm_content := PStr (build_system_prompt
                                  (metadata_difficulty participant_metadata)
                                  (metadata_topic participant_metadata)) |} ];
     assistant_llm :=
       CerebrasHandler_init (metadata_difficulty participant_metadata)
         (metadata_topic participant_metadata)
         (CerebrasLLM_init (getenv "CEREBRAS_API_KEY") default_api_url);
     said := [greeting] |}.
Proof.
  intros H.
  assert (Hc : connect ext = Ok tt).
  { unfold entrypoint in H. destruct (connect ext) as [[]|]; [reflexivity|].
    discriminate H. }
  assert (Hv : voice_assistant ext = Ok tt).
  { unfold entrypoint in H. rewrite Hc in H. cbn [bind] in H.
    destruct participant_metadata;
      (destruct (voice_assistant ext) as [[]|]; [reflexivity | discriminate H]). }
  rewrite (entrypoint_started getenv ext participant_metadata Hc Hv) in H.
  now inversion H.
Qed.

(** X14.  The two defaults of the difficulty differ.  A participant with
    no metadata, undecodable metadata or metadata without a [difficulty]
    key gets the beginner prompt; a participant whose [difficulty] is a
    string outside the three levels gets the advanced prompt. *)
Theorem entrypoint_difficulty_defaults (getenv : string -> option string)
    (ext : Collaborators) (participant_metadata : Metadata) (session : Session) :
  entrypoint getenv ext participant_metadata = Ok session ->
  let topic := metadata_topic participant_metadata in
  ((participant_metadata = MetaAbsent \/ participant_metadata = MetaMalformed \/
    exists metadata, participant_metadata = MetaObject metadata /\
                     dict_lookup "difficulty" metadata = None) ->
   messages (assistant_llm session)
     = [system_message (build_system_prompt "beginner" topic)]) /\
  (forall metadata d,
     participant_metadata = MetaObject metadata ->
     dict_lookup "difficulty" metadata = Some d ->
     ~ In d levels ->
     messages (assistant_llm session)
       = [system_message (build_system_prompt "advanced" topic)]).
Proof.
  intros H topic. subst topic.
  rewrite (entrypoint_ok_inv _ _ _ _ H). cbn [assistant_llm]. split.
  - intros [-> | [-> | (metadata & -> & Hd)]]; try reflexivity.
    unfold CerebrasHandler_init, system_message, metadata_difficulty.
    cbn [messages]. now rewrite Hd.
  - intros metadata d -> Hd Hn.
    unfold CerebrasHandler_init, system_message, metadata_difficulty.
    cbn [messages]. rewrite Hd.
    rewrite (build_system_prompt_parts d), (clause_of_unmatched d Hn).
    now rewrite build_system_prompt_parts.
Qed.

Lemma entrypoint_difficulty_defaults_witness :
  let session :=
    {| session_cerebras := CerebrasLLM_init None default_api_url;
       initial_ctx := [ {| cm_role := "system";
                           cm_content := PStr (build_system_prompt "expert" None) |} ];
       assistant_llm :=
         CerebrasHandler_init "expert" None (CerebrasLLM_init None default_api_url);
       said := [greeting] |} in
  messages (assistant_llm session)
    = [system_message (build_system_prompt "advanced" None)].
Proof.
  intros session.
  apply (proj2 (entrypoint_difficulty_defaults empty_environ working_collaborators
                  (MetaObject [("difficulty", "expert")]) session eq_refl)
           [("difficulty", "expert")] "expert").
  - reflexivity.
  - reflexivity.
  - simpl. intros [H | [H | [H | []]]]; discriminate H.
Defined.

(** X15.  Whatever the environment and the metadata, the client of a
    started session sends its requests to
    [https://api.cerebras.ai/v1/chat/completions] for the model
    [llama3.3-70b]; of the environment only [CEREBRAS_API_KEY] reaches a
    request, as the bearer token. *)
Theorem entrypoint_fixed_endpoint (getenv : string -> option string)
    (ext : Collaborators) (participant_metadata : Metadata) (session : Session)
    (msgs : list Message) (temperature : float) (max_tokens : Z) :
  entrypoint getenv ext participant_metadata = Ok session ->
  let req := generate_request (session_cerebras session) msgs temperature max_tokens in
  req_url req = "https://api.cerebras.ai/v1/chat/completions" /\
  p_model (req_json req) = "llama3.3-70b" /\
  req_headers req
    = [("Authorization", "Bearer " ++ format_api_key (getenv "CEREBRAS_API_KEY"));
       ("Content-Type", "application/json")].
Proof.
  intros H req. subst req. rewrite (entrypoint_ok_inv _ _ _ _ H).
  repeat split.
Qed.

Lemma entrypoint_fixed_endpoint_witness :
  let req := generate_request (session_cerebras sample_session)
               sample_messages default_temperature default_max_tokens in
  req_url req = "https://api.cerebras.ai/v1/chat/completions" /\
  p_model (req_json req) = "llama3.3-70b" /\
  req_headers req
    = [("Authorization", "Bearer " ++ format_api_key (empty_environ "CEREBRAS_API_KEY"));
       ("Content-Type", "application/json")].
Proof.
  apply (entrypoint_fixed_endpoint empty_environ working_collaborators
           (MetaObject [("topic", "travel")]) sample_session
           sample_messages default_temperature default_max_tokens).
  reflexivity.
Defined.

(** X16.  Metadata that cannot be used is ignored without an error: when
    the participant's metadata is absent, empty, not decodable, or
    decodes to something that is not an object, the difficulty stays
    ["beginner"] and the topic stays [None]. *)
Theorem read_participant_metadata_defaults (loads : string -> Exc PyVal)
    (participant_metadata : option string) :
  participant_metadata = None \/
  participant_metadata = Some "" \/
  (exists raw e, participant_metadata = Some raw /\ loads raw = Raise e) \/
  (exists raw v, participant_metadata = Some raw /\ loads raw = Ok v /\
                 forall d, v <> PDict d) ->
  read_participant_metadata loads participant_metadata = (PStr "beginner", PNone).
Proof.
  unfold read_participant_metadata.
  intros [-> | [-> | [(raw & e & -> & He) | (raw & v & -> & Hv & Hd)]]];
    try reflexivity.
  - destruct (negb (raw =? "")%string); [now rewrite He | reflexivity].
  - destruct (negb (raw =? "")%string); [rewrite Hv | reflexivity].
    destruct v; try reflexivity. now elim (Hd d).
Qed.

Lemma read_participant_metadata_defaults_witness :
  read_participant_metadata (fun _ => Ok (PList [PInt 1; PInt 2])) (Some "[1, 2]")
  = (PStr "beginner", PNone).
Proof.
  apply (read_participant_metadata_defaults
           (fun _ => Ok (PList [PInt 1; PInt 2])) (Some "[1, 2]")).
  right. right. right.
  exists "[1, 2]", (PList [PInt 1; PInt 2]).
  split; [reflexivity | split; [reflexivity | intros d H; discriminate H]].
Defined.

(** X17.  Metadata that decodes to an object sets both variables, each
    key on its own: a key that is present gives its value as it is (an
    explicit [null] included, the default does not replace it), a missing
    [difficulty] gives ["beginner"], a missing [topic] gives [None]. *)
Theorem read_participant_metadata_object (loads : string -> Exc PyVal)
    (raw : string) (d : list (string * PyVal)) :
  raw <> "" ->
  loads raw = Ok (PDict d) ->
  read_participant_metadata loads (Some raw)
  = (match dict_lookup "difficulty" d with Some v => v | None => PStr "beginner" end,
     match dict_lookup "topic" d with Some v => v | None => PNone end).
Proof.
  intros Hne Hl. unfold read_participant_metadata.
  apply String.eqb_neq in Hne. rewrite Hne. cbn [negb]. now rewrite Hl.
Qed.

Lemma read_participant_metadata_object_witness :
  let quote := String (ascii_of_nat 34) "" in
  let raw := "{" ++ quote ++ "difficulty" ++ quote ++ ": null}" in
  read_participant_metadata (fun _ => Ok (PDict [("difficulty", PNone)])) (Some raw)
  = (PNone, PNone).
Proof.
  intros quote raw.
  apply (read_participant_metadata_object
           (fun _ => Ok (PDict [("difficulty", PNone)])) raw
           [("difficulty", PNone)]).
  - intros H. discriminate H.
  - reflexivity.
Defined.
